(** * sail: container assembly and recovery (runner.go)

    A shallow embedding of [runner.go] of package [main]: the mount
    assembler, the label propagator, the create path [runContainer] and
    the recovery path [runnerFromContainer], with the Docker engine and
    the host operating system as an explicit world that every call
    threads through, and a trace of the engine calls made. *)

From Stdlib Require Import Ascii.
From stdpp Require Import gmap strings list fin_maps.

Local Open Scope string_scope.
Local Open Scope list_scope.

(** ** Go library functions used by runner.go *)

(** [strings]: byte strings are [string]; a Go byte is an [ascii]. *)
Module strings.

(** [strings.HasPrefix(s, prefix)]. *)
Definition HasPrefix (s prefix : string) : bool := String.prefix prefix s.

(** [strings.Join(elems, sep)]. *)
Fixpoint Join (elems : list string) (sep : string) : string :=
  match elems with
  | [] => ""
  | [e] => e
  | e :: rest => e +:+ sep +:+ Join rest sep
  end.

(** The scan behind [strings.Split] for a non-empty separator: [cur] is
    the token read so far, [skip] the bytes of a separator that was just
    matched and is still to be passed over. Matches are leftmost and do
    not overlap. *)
Fixpoint split_from (sep : string) (skip : nat) (cur s : string) : list string :=
  match s with
  | "" => [cur]
  | String c s' =>
      match skip with
      | S n => split_from sep n cur s'
      | O =>
          if String.prefix sep s
          then cur :: split_from sep (String.length sep - 1) "" s'
          else split_from sep 0 (cur +:+ String c "") s'
      end
  end.

(** With an empty separator Go explodes the string (here: byte by byte). *)
Fixpoint explode (s : string) : list string :=
  match s with
  | "" => []
  | String c s' => String c "" :: explode s'
  end.

(** [strings.Split(s, sep)]. *)
Definition Split (s sep : string) : list string :=
  match sep with
  | "" => explode s
  | _ => split_from sep 0 "" s
  end.

(** [strings.Count(s, ":")], used to phrase "exactly one colon". *)
Fixpoint count_byte (c : ascii) (s : string) : nat :=
  match s with
  | "" => 0
  | String c' s' => (if decide (c' = c) then 1 else 0) + count_byte c s'
  end.

End strings.

(** [path/filepath] on a Unix host (separator ["/"]). *)
Module filepath.

(** One step of [Clean] over the elements kept so far (last one first):
    empty and ["."] elements vanish, [".."] removes the element before it
    when there is one to remove, stays when the path is not rooted, and
    vanishes at the root. *)
Definition clean_step (rooted : bool) (kept : list string) (elem : string) : list string :=
  if decide (elem = "") then kept
  else if decide (elem = ".") then kept
  else if decide (elem = "..") then
    match kept with
    | top :: below => if decide (top = "..") then elem :: kept else below
    | [] => if rooted then [] else [elem]
    end
  else elem :: kept.

(** [filepath.Clean(path)]. *)
Definition Clean (path : string) : string :=
  if decide (path = "") then "."
  else
    let rooted := strings.HasPrefix path "/" in
    let kept := rev (fold_left (clean_step rooted) (strings.Split path "/") []) in
    match rooted, kept with
    | true, _ => "/" +:+ strings.Join kept "/"
    | false, [] => "."
    | false, _ => strings.Join kept "/"
    end.

(** [filepath.Join(elem...)]: the elements from the first non-empty one
    on, joined with the separator and cleaned. *)
Fixpoint Join (elem : list string) : string :=
  match elem with
  | [] => ""
  | e :: rest =>
      if decide (e = "") then Join rest
      else Clean (strings.Join elem "/")
  end.

(** [filepath.IsAbs(path)]. *)
Definition IsAbs (path : string) : bool := strings.HasPrefix path "/".

End filepath.

(** ** Errors *)

(** A Go [error] value: one produced outside this file (by the engine or
    the operating system), or one built here by [xerrors.Errorf], kept as
    the format and its string arguments in order, and, for a format that
    ends in [%w], the error that is wrapped. *)
Inductive error : Type :=
| External (msg : string)
| Errorf (format : string) (strs : list string)
| Wrapf (format : string) (strs : list string) (wrapped : error).

(** What a Go function of type [(T, error)] returns. *)
Inductive result (T : Type) : Type :=
| Ok (v : T)
| Err (e : error).
Arguments Ok {T} v.
Arguments Err {T} e.

(** ** Docker API types (the fields runner.go reads or writes) *)

(** [mount.Mount]. *)
Record Mount : Type := mkMount {
  Type_ : string;
  Source : string;
  Target : string;
}.

(** [mount.TypeBind]. *)
Definition TypeBind : string := "bind".

(** [container.Config]. *)
Record Config : Type := mkConfig {
  Hostname : string;
  Cmd : list string;
  Image : string;
  Labels : gmap string string;
  User : string;
}.

(** [container.HostConfig]. *)
Record HostConfig : Type := mkHostConfig {
  Mounts : list Mount;
  Privileged : bool;
}.

(** [network.EndpointSettings]. *)
Record EndpointSettings : Type := mkEndpointSettings {
  NetworkID : string;
  IPAddress : string;
}.

(** [network.NetworkingConfig]. *)
Record NetworkingConfig : Type := mkNetworkingConfig {
  EndpointsConfig : gmap string EndpointSettings;
}.

(** [types.ImageInspect]: the image carries two configurations, the
    fields [ContainerConfig] and [Config] of the Go struct; the second is
    [ImageConfig] here. Both are pointers in Go; here they are always set,
    so a run on an answer that lacks one of them is outside the model. *)
Record ImageInspect : Type := mkImageInspect {
  ContainerConfig : Config;
  ImageConfig : Config;
}.

(** [types.NetworkSettings]: the container's address on each network it is
    attached to. *)
Record NetworkSettings : Type := mkNetworkSettings {
  Networks : gmap string EndpointSettings;
}.

(** [types.ContainerJSON]. *)
Record ContainerJSON : Type := mkContainerJSON {
  CntConfig : Config;
  CntNetworkSettings : NetworkSettings;
}.

(** ** The runner *)

Record runner : Type := mkRunner {
  cntName : string;
  projectName : string;
  hostname : string;
  projectLocalDir : string;
  hostUser : string;
  network : string;
  ip : string;
  testCmd : string;
}.

(** The assignment [r.ip = ip]. *)
Definition set_ip (r : runner) (ip : string) : runner :=
  {| cntName := cntName r; projectName := projectName r; hostname := hostname r;
     projectLocalDir := projectLocalDir r; hostUser := hostUser r;
     network := network r; ip := ip; testCmd := testCmd r |}.

(** ** stripDuplicateMounts *)

(** The loop of [stripDuplicateMounts]: [dests] is the set of targets seen
    and [rmounts] the mounts kept so far. *)
Fixpoint stripDuplicateMounts_loop (mounts : list Mount) (dests : gset string)
    (rmounts : list Mount) : list Mount :=
  match mounts with
  | [] => rmounts
  | mnt :: rest =>
      if decide (Target mnt ∈ dests)
      then stripDuplicateMounts_loop rest dests rmounts
      else stripDuplicateMounts_loop rest ({[Target mnt]} ∪ dests) (rmounts ++ [mnt])
  end.

Definition stripDuplicateMounts (mounts : list Mount) : list Mount :=
  stripDuplicateMounts_loop mounts ∅ [].

(** ** The world outside runner.go *)

(** An engine call together with the answer it got. *)
Inductive Event : Type :=
| EvImageInspect (image : string) (resp : result ImageInspect)
| EvContainerCreate (config : Config) (hostConfig : HostConfig)
    (netConfig : NetworkingConfig) (name : string) (resp : result string)
| EvContainerStart (name : string) (resp : option error)
| EvContainerInspect (name : string) (resp : result ContainerJSON)
| EvContainerIP (name : string) (resp : result string).

(** The Docker client, over a world [W] that each call may change. *)
Class Docker (W : Type) : Type := {
  ImageInspectWithRaw : string → W → result ImageInspect * W;
  ContainerCreate : Config → HostConfig → NetworkingConfig → string → W → result string * W;
  ContainerStart : string → W → option error * W;
  ContainerInspect : string → W → result ContainerJSON * W;
}.

(** Package [os]. *)
Class HostOS (W : Type) : Type := {
  UserHomeDir : W → result string * W;
  MkdirAll : string → N → W → option error * W;
  Getwd : W → result string * W;
}.

(** What runner.go uses of the rest of package [main] and of
    [internal/dockutil]: three constants and four functions, taken as they
    are called. *)
Class Package (W : Type) : Type := {
  sailLabel : string;
  guestHomeDir : string;
  containerLogPath : string;
  resolvePath : string → string → string;
  metaRoot : W → string * W;
  loadCodeServer : W → result string * W;
  ContainerIP : string → W → result string * W;
}.

(** The order in which [range] walks a map: any one, chosen by the Go
    runtime. It is a parameter, and what is proved holds for every
    choice of it. *)
Class MapRange : Type := {
  range_order : gmap string string → list (string * string);
  range_order_perm : ∀ m, range_order m ≡ₚ map_to_list m;
}.

(** ** Computations: world, trace of engine calls, panics *)

(** The value a goroutine panicked with: [panic(err)] or
    [panicf(format, str, err)]. *)
Inductive panicval : Type :=
| PanicErr (e : error)
| PanicSprintf (format : string) (strs : list string) (e : error).

Inductive outcome (A : Type) : Type :=
| Done (a : A)
| Panicked (p : panicval).
Arguments Done {A} a.
Arguments Panicked {A} p.

Definition M (W A : Type) : Type := W * list Event → outcome A * (W * list Event).

Definition ret {W A} (a : A) : M W A := λ st, (Done a, st).

Definition bind {W A B} (m : M W A) (k : A → M W B) : M W B :=
  λ st, match m st with
        | (Done a, st') => k a st'
        | (Panicked p, st') => (Panicked p, st')
        end.

Definition panic {W A} (p : panicval) : M W A := λ st, (Panicked p, st).

(** A call that is not an engine call: it changes the world only. *)
Definition host {W X} (op : W → X * W) : M W X :=
  λ st, let '(x, w') := op st.1 in (Done x, (w', st.2)).

(** An engine call: it changes the world and is appended to the trace with
    its answer. *)
Definition engine {W X} (op : W → X * W) (ev : X → Event) : M W X :=
  λ st, let '(x, w') := op st.1 in (Done x, (w', st.2 ++ [ev x])).

Notation "x <- m ;; k" := (bind m (λ x, k))
  (at level 100, m at next level, right associativity).

(** The trace of a run, and what it returned. *)
Definition calls {W A} (m : M W A) (w : W) : list Event := (m (w, [])).2.2.
Definition returned {W A} (m : M W A) (w : W) : outcome A := (m (w, [])).1.

(** ** runner.go *)

Section Runner.
Context {W : Type} `{!Docker W, !HostOS W, !Package W, !MapRange}.

(** Docker labels for sail state. *)
Definition baseImageLabel : string := sailLabel +:+ ".base_image".
Definition hatLabel : string := sailLabel +:+ ".hat".
Definition projectLocalDirLabel : string := sailLabel +:+ ".project_local_dir".
Definition projectDirLabel : string := sailLabel +:+ ".project_dir".
Definition projectNameLabel : string := sailLabel +:+ ".project_name".

(** [cli.ImageInspectWithRaw(ctx, image)] and the other client calls, as
    engine calls on the trace. *)
Definition imageInspect (image : string) : M W (result ImageInspect) :=
  engine (ImageInspectWithRaw image) (EvImageInspect image).

Definition containerCreate (config : Config) (hostConfig : HostConfig)
    (netConfig : NetworkingConfig) (name : string) : M W (result string) :=
  engine (ContainerCreate config hostConfig netConfig name)
         (EvContainerCreate config hostConfig netConfig name).

Definition containerStart (name : string) : M W (option error) :=
  engine (ContainerStart name) (EvContainerStart name).

Definition containerInspect (name : string) : M W (result ContainerJSON) :=
  engine (ContainerInspect name) (EvContainerInspect name).

Definition containerIP (name : string) : M W (result string) :=
  engine (ContainerIP name) (EvContainerIP name).

(** [filepath.Abs(path)] on Unix. *)
Definition filepath_Abs (path : string) : M W (result string) :=
  if filepath.IsAbs path then ret (Ok (filepath.Clean path))
  else
    wd <- host Getwd ;;
    match wd with
    | Err err => ret (Err err)
    | Ok wd => ret (Ok (filepath.Join [wd; path]))
    end.

(** [(r *runner) projectDir(image)]. *)
Definition projectDir (r : runner) (image : string) : M W (result string) :=
  img <- imageInspect image ;;
  match img with
  | Err err => ret (Err (Wrapf "failed to inspect image: %w" [] err))
  | Ok img =>
      match Labels (ImageConfig img) !! "project_root" with
      | Some proot => ret (Ok (filepath.Join [proot; projectName r]))
      | None => ret (Ok (filepath.Join [guestHomeDir; projectName r]))
      end
  end.

(** The loop of [imageDefinedMounts] over the labels in the order
    [range] yields them. *)
Fixpoint imageDefinedMounts_loop (labels : list (string * string))
    (mounts : list Mount) : result (list Mount) :=
  match labels with
  | [] => Ok mounts
  | (k, v) :: rest =>
      if negb (strings.HasPrefix k "share.") then imageDefinedMounts_loop rest mounts
      else
        match strings.Split v ":" with
        | [token0; token1] =>
            imageDefinedMounts_loop rest (mounts ++ [mkMount TypeBind token0 token1])
        | _ => Err (Errorf "invalid share %q" [v])
        end
  end.

(** [(r *runner) imageDefinedMounts(image, mounts)]. *)
Definition imageDefinedMounts (r : runner) (image : string) (mounts : list Mount)
    : M W (result (list Mount)) :=
  ins <- imageInspect image ;;
  match ins with
  | Err err => ret (Err (Wrapf "failed to inspect %v: %w" [image] err))
  | Ok ins => ret (imageDefinedMounts_loop (range_order (Labels (ContainerConfig ins))) mounts)
  end.

(** The loop of [addImageDefinedLabels]: [labels[k] = v] for every image
    label in the reserved namespace. *)
Fixpoint addImageDefinedLabels_loop (imageLabels : list (string * string))
    (labels : gmap string string) : gmap string string :=
  match imageLabels with
  | [] => labels
  | (k, v) :: rest =>
      if negb (strings.HasPrefix k sailLabel) then addImageDefinedLabels_loop rest labels
      else addImageDefinedLabels_loop rest (<[k := v]> labels)
  end.

(** [(r *runner) addImageDefinedLabels(image, labels)]. The Go function
    writes into the caller's map and returns an error; here it returns the
    map as it leaves it, with the error. *)
Definition addImageDefinedLabels (r : runner) (image : string) (labels : gmap string string)
    : M W (gmap string string * option error) :=
  ins <- imageInspect image ;;
  match ins with
  | Err err => ret (labels, Some (Wrapf "failed to inspect %v: %w" [image] err))
  | Ok ins =>
      ret (addImageDefinedLabels_loop (range_order (Labels (ContainerConfig ins))) labels, None)
  end.

(** The loop of [resolveMounts]: each mount is rewritten in place. At the
    [panicf] the source has already been overwritten by the empty string
    that [filepath.Abs] returns with its error. *)
Fixpoint resolveMounts_loop (hostHomeDir : string) (mounts : list Mount)
    : M W (list Mount) :=
  match mounts with
  | [] => ret []
  | mnt :: rest =>
      src <- filepath_Abs (resolvePath hostHomeDir (Source mnt)) ;;
      match src with
      | Err err => panic (PanicSprintf "failed to resolve %v: %v" [""] err)
      | Ok src =>
          let mnt := mkMount (Type_ mnt) src (resolvePath guestHomeDir (Target mnt)) in
          rest <- resolveMounts_loop hostHomeDir rest ;;
          ret (mnt :: rest)
      end
  end.

(** [(r *runner) resolveMounts(mounts)]: the slice is changed in place;
    here the changed slice is returned. *)
Definition resolveMounts (r : runner) (mounts : list Mount) : M W (list Mount) :=
  home <- host UserHomeDir ;;
  match home with
  | Err err => panic (PanicErr err)
  | Ok hostHomeDir => resolveMounts_loop hostHomeDir mounts
  end.

(** [(r *runner) mounts(mounts, image)]; 488 is the mode 0750. *)
Definition mounts (r : runner) (mounts : list Mount) (image : string)
    : M W (result (list Mount)) :=
  let mounts := mounts ++ [mkMount "bind" "~/.config/Code" "~/.config/Code"] in
  let mounts := mounts ++ [mkMount "bind" "~/.vscode/extensions" "~/.vscode/extensions"] in
  root <- host metaRoot ;;
  let localGlobalStorageDir := filepath.Join [root; cntName r; "globalStorage"] in
  err <- host (MkdirAll localGlobalStorageDir 488%N) ;;
  match err with
  | Some err => ret (Err err)
  | None =>
      let mounts := mounts ++ [mkMount "bind" localGlobalStorageDir
                                 "~/.local/share/code-server/globalStorage/"] in
      pd <- projectDir r image ;;
      match pd with
      | Err err => ret (Err err)
      | Ok projectDir =>
          let mounts := mounts ++ [mkMount "bind" (projectLocalDir r) projectDir] in
          bin <- host loadCodeServer ;;
          match bin with
          | Err err => ret (Err (Wrapf "failed to load code-server: %w" [] err))
          | Ok codeServerBinPath =>
              let mounts := mounts ++ [mkMount TypeBind codeServerBinPath
                                         "/usr/bin/code-server"] in
              ms <- imageDefinedMounts r image mounts ;;
              match ms with
              | Err err => ret (Err err)
              | Ok mounts =>
                  mounts <- resolveMounts r mounts ;;
                  ret (Ok mounts)
              end
          end
      end
  end.

(** [(r *runner) runContainer(image)]. The 30 second deadline of the
    context and the closing of the client are not part of the model. *)
Definition runContainer (r : runner) (image : string) : M W (option error) :=
  ms <- mounts r [] image ;;
  match ms with
  | Err err => ret (Some (Wrapf "failed to assemble mounts: %w" [] err))
  | Ok mounts =>
      pd <- projectDir r image ;;
      match pd with
      | Err err => ret (Some err)
      | Ok projectDir =>
          let cmd := "cd " +:+ projectDir +:+
            "; code-server --data-dir ~/.config/Code --extensions-dir ~/.vscode/extensions --allow-http --no-auth 2>&1 | tee "
            +:+ containerLogPath in
          let cmd := if decide (testCmd r ≠ "") then testCmd r +:+ "; exit 1" else cmd in
          let labels : gmap string string :=
            <[projectNameLabel := projectName r]>
            (<[projectLocalDirLabel := projectLocalDir r]>
            (<[projectDirLabel := projectDir]>
            (<[sailLabel := ""]> ∅))) in
          added <- addImageDefinedLabels r image labels ;;
          let '(labels, err) := added in
          match err with
          | Some err => ret (Some (Wrapf "failed to add image defined labels: %w" [] err))
          | None =>
              let containerConfig :=
                {| Hostname := hostname r;
                   Cmd := ["bash"; "-c"; cmd];
                   Image := image;
                   Labels := labels;
                   User := hostUser r +:+ ":user" |} in
              let hostConfig := {| Mounts := mounts; Privileged := true |} in
              let netConfig :=
                {| EndpointsConfig :=
                     {[ network r := {| NetworkID := network r; IPAddress := ip r |} ]} |} in
              created <- containerCreate containerConfig hostConfig netConfig (cntName r) ;;
              match created with
              | Err err => ret (Some (Wrapf "failed to create container: %w" [] err))
              | Ok _ =>
                  err <- containerStart (cntName r) ;;
                  match err with
                  | Some err => ret (Some (Wrapf "failed to start container: %w" [] err))
                  | None => ret None
                  end
              end
          end
      end
  end.

(** [runnerFromContainer(name, network)]. A label that is absent reads as
    the empty string, as a Go map lookup does. *)
Definition runnerFromContainer (name network : string) : M W (result runner) :=
  cnt <- containerInspect name ;;
  match cnt with
  | Err err => ret (Err (Wrapf "failed to inspect %v: %w" [name] err))
  | Ok cnt =>
      let r :=
        {| cntName := name;
           hostname := Hostname (CntConfig cnt);
           projectLocalDir := default "" (Labels (CntConfig cnt) !! projectLocalDirLabel);
           projectName := default "" (Labels (CntConfig cnt) !! projectNameLabel);
           hostUser := User (CntConfig cnt);
           network := network;
           ip := "";
           testCmd := "" |} in
      ipr <- containerIP name ;;
      match ipr with
      | Err err => ret (Err (Wrapf "failed to get container %s IP: %w" [name] err))
      | Ok ip_ =>
          ret (Ok (set_ip r ip_))
      end
  end.

End Runner.

(** ** A small engine and host to run the code on *)

Module Sim.

(** The engine's object store, a start fault to inject, and the host's
    home and working directories. *)
Record world : Type := mkWorld {
  images : gmap string ImageInspect;
  containers : gmap string ContainerJSON;
  started : gset string;
  start_fault : option error;
  home : string;
  cwd : string;
}.

Definition with_containers (w : world) (cs : gmap string ContainerJSON) : world :=
  {| images := images w; containers := cs; started := started w;
     start_fault := start_fault w; home := home w; cwd := cwd w |}.

Definition with_started (w : world) (s : gset string) : world :=
  {| images := images w; containers := containers w; started := s;
     start_fault := start_fault w; home := home w; cwd := cwd w |}.

Definition inspect_image (image : string) (w : world) : result ImageInspect * world :=
  match images w !! image with
  | Some ins => (Ok ins, w)
  | None => (Err (External ("No such image: " +:+ image)), w)
  end.

Definition create (config : Config) (hostConfig : HostConfig)
    (netConfig : NetworkingConfig) (name : string) (w : world) : result string * world :=
  match containers w !! name with
  | Some _ => (Err (External ("Conflict. The container name is already in use: " +:+ name)), w)
  | None =>
      (Ok name,
       with_containers w
         (<[name := {| CntConfig := config;
                       CntNetworkSettings := {| Networks := EndpointsConfig netConfig |} |}]>
            (containers w)))
  end.

Definition start (name : string) (w : world) : option error * world :=
  match start_fault w with
  | Some e => (Some e, w)
  | None => (None, with_started w ({[name]} ∪ started w))
  end.

Definition inspect_container (name : string) (w : world) : result ContainerJSON * world :=
  match containers w !! name with
  | Some cnt => (Ok cnt, w)
  | None => (Err (External ("No such container: " +:+ name)), w)
  end.

(** Modelled from the spec: [dockutil.ContainerIP] (internal/dockutil is
    not among the sources) is "a live IP lookup"; it is called with the
    container name only, so it reports the address of the first network
    the container is attached to. *)
Definition container_ip (name : string) (w : world) : result string * world :=
  match containers w !! name with
  | None => (Err (External ("No such container: " +:+ name)), w)
  | Some cnt =>
      match map_to_list (Networks (CntNetworkSettings cnt)) with
      | (_, ep) :: _ => (Ok (IPAddress ep), w)
      | [] => (Err (External "no network found"), w)
      end
  end.

(** Modelled from the spec: [resolvePath] (defined elsewhere in package
    main) takes "a path string that may begin with a home-directory
    placeholder token, and a concrete home-directory string" and produces
    "the path with the placeholder substituted". *)
Definition resolve_path (homedir path : string) : string :=
  match path with
  | String c rest => if decide (c = "~"%char) then homedir +:+ rest else path
  | "" => path
  end.

#[global] Instance docker : Docker world := {|
  ImageInspectWithRaw := inspect_image;
  ContainerCreate := create;
  ContainerStart := start;
  ContainerInspect := inspect_container;
|}.

#[global] Instance host_os : HostOS world := {|
  UserHomeDir := λ w, (Ok (home w), w);
  MkdirAll := λ _ _ w, (None, w);
  Getwd := λ w, (Ok (cwd w), w);
|}.

(** Modelled from the spec: the reserved namespace is [sail], the guest
    home directory and the log path are fixed strings, the metadata root
    lies under the host home directory and the editor-server binary comes
    from a local cache. *)
#[global] Instance package : Package world := {|
  sailLabel := "sail";
  guestHomeDir := "/home/user";
  containerLogPath := "/tmp/code-server.log";
  resolvePath := resolve_path;
  metaRoot := λ w, (home w +:+ "/.local/share/sail", w);
  loadCodeServer := λ w, (Ok (home w +:+ "/.cache/sail/code-server"), w);
  ContainerIP := container_ip;
|}.

#[global] Instance map_range : MapRange := {|
  range_order := map_to_list;
  range_order_perm := λ m, reflexivity (map_to_list m);
|}.

Definition image_with (containerLabels configLabels : gmap string string) : ImageInspect :=
  {| ContainerConfig := {| Hostname := ""; Cmd := []; Image := ""; Labels := containerLabels; User := "" |};
     ImageConfig := {| Hostname := ""; Cmd := []; Image := ""; Labels := configLabels; User := "" |} |}.

(** A host with one image, [img], and no container. *)
Definition fresh (img : ImageInspect) : world :=
  {| images := {[ "img" := img ]}; containers := ∅; started := ∅;
     start_fault := None; home := "/home/alice"; cwd := "/work" |}.

Definition alice : runner :=
  {| cntName := "alice_proj"; projectName := "proj"; hostname := "proj";
     projectLocalDir := "~/Projects/proj"; hostUser := "1000";
     network := "sail"; ip := "172.20.0.2"; testCmd := "" |}.

End Sim.

(** ** The vocabulary of the statements *)

Section Vocabulary.
Context {W : Type} `{!Docker W, !HostOS W, !Package W, !MapRange}.

(** The mounts [stripDuplicateMounts_loop] adds to the ones it has
    kept, without the accumulator. *)
Fixpoint first_seen (dests : gset string) (mounts : list Mount) : list Mount :=
  match mounts with
  | [] => []
  | mnt :: rest =>
      if decide (Target mnt ∈ dests) then first_seen dests rest
      else mnt :: first_seen ({[Target mnt]} ∪ dests) rest
  end.

(** The number of colons in a string. *)
Definition colons (s : string) : nat := strings.count_byte ":" s.

(** The guest project directory that [projectDir] computes from an
    inspected image. *)
Definition projectDir_of (r : runner) (img : ImageInspect) : string :=
  filepath.Join [default guestHomeDir (Labels (ImageConfig img) !! "project_root");
                 projectName r].

(** The five mounts [mounts] appends before the image's shares. *)
Definition builtin_mounts (r : runner) (root projectDir codeServerBinPath : string)
    : list Mount :=
  [ mkMount "bind" "~/.config/Code" "~/.config/Code";
    mkMount "bind" "~/.vscode/extensions" "~/.vscode/extensions";
    mkMount "bind" (filepath.Join [root; cntName r; "globalStorage"])
            "~/.local/share/code-server/globalStorage/";
    mkMount "bind" (projectLocalDir r) projectDir;
    mkMount "bind" codeServerBinPath "/usr/bin/code-server" ].

(** [mnt'] is [mnt] after path resolution on a host whose home
    directory is [hostHomeDir]. *)
Definition resolved (hostHomeDir : string) (mnt mnt' : Mount) : Prop :=
  Type_ mnt' = Type_ mnt ∧
  Target mnt' = resolvePath guestHomeDir (Target mnt) ∧
  let path := resolvePath hostHomeDir (Source mnt) in
  if filepath.IsAbs path then Source mnt' = filepath.Clean path
  else ∃ wd, Source mnt' = filepath.Join [wd; path].

(** The events that are image inspections. *)
Definition is_inspect (ev : Event) : Prop :=
  match ev with EvImageInspect _ _ => True | _ => False end.

(** The string handed to [bash -c]. *)
Definition entry_command (r : runner) (projectDir : string) : string :=
  if decide (testCmd r ≠ "") then testCmd r +:+ "; exit 1"
  else "cd " +:+ projectDir +:+
       "; code-server --data-dir ~/.config/Code --extensions-dir ~/.vscode/extensions --allow-http --no-auth 2>&1 | tee "
       +:+ containerLogPath.

(** The map literal of [runContainer]. *)
Definition control_labels (r : runner) (projectDir : string) : gmap string string :=
  <[projectNameLabel := projectName r]>
  (<[projectLocalDirLabel := projectLocalDir r]>
  (<[projectDirLabel := projectDir]>
  (<[sailLabel := ""]> ∅))).

(** The request of the one [ContainerCreate] call of a run, from the
    answers the run got before it. *)
Definition create_request (r : runner) (image : string) (ms : list Mount)
    (ins3 ins4 : ImageInspect) (resp : result string) : Event :=
  EvContainerCreate
    {| Hostname := hostname r;
       Cmd := ["bash"; "-c"; entry_command r (projectDir_of r ins3)];
       Image := image;
       Labels := addImageDefinedLabels_loop (range_order (Labels (ContainerConfig ins4)))
                   (control_labels r (projectDir_of r ins3));
       User := hostUser r +:+ ":user" |}
    {| Mounts := ms; Privileged := true |}
    {| EndpointsConfig :=
         {[ network r := {| NetworkID := network r; IPAddress := ip r |} ]} |}
    (cntName r) resp.

(** A label is a share declaration when its key has the share prefix. *)
Definition is_share (kv : string * string) : bool := strings.HasPrefix kv.1 "share.".

(** A share declaration is well formed when its value has exactly one
    colon. *)
Definition well_formed (labels : list (string * string)) : Prop :=
  ∀ kv, kv ∈ labels → is_share kv = true → colons kv.2 = 1.

(** [mnt] is the bind mount that the label [kv] declares: its source is
    the first token of the value and its target the second. *)
Definition declares (kv : string * string) (mnt : Mount) : Prop :=
  Type_ mnt = "bind" ∧
  strings.Split kv.2 ":" = [Source mnt; Target mnt] ∧
  kv.2 = Source mnt +:+ ":" +:+ Target mnt.

(** The first occurrences of a list, by positions: the mount at position
    [i] is kept when no mount before position [i] has its target, and
    the mounts kept stand in the order of their positions. *)
Definition first_occurrences (mounts : list Mount) : list Mount :=
  omap (λ im : nat * Mount,
          if decide (Target im.2 ∈ Target <$> take im.1 mounts) then None
          else Some im.2)
       (imap pair mounts).

(** Path resolution of a list of mounts on a host whose home directory
    is [hostHomeDir], from the world [w] to the world [w']: each mount
    keeps its type, its target is resolved against the guest home
    directory, and its source is resolved against the host home directory
    and made absolute, which asks the world for the working directory
    when the path is not absolute yet. *)
Inductive resolves (hostHomeDir : string) : W → list Mount → list Mount → W → Prop :=
| resolves_nil (w : W) : resolves hostHomeDir w [] [] w
| resolves_absolute (w w' : W) (mnt : Mount) (rest rest' : list Mount) :
    filepath.IsAbs (resolvePath hostHomeDir (Source mnt)) = true →
    resolves hostHomeDir w rest rest' w' →
    resolves hostHomeDir w (mnt :: rest)
      (mkMount (Type_ mnt) (filepath.Clean (resolvePath hostHomeDir (Source mnt)))
               (resolvePath guestHomeDir (Target mnt)) :: rest') w'
| resolves_relative (w w1 w' : W) (wd : string) (mnt : Mount) (rest rest' : list Mount) :
    filepath.IsAbs (resolvePath hostHomeDir (Source mnt)) = false →
    Getwd w = (Ok wd, w1) →
    resolves hostHomeDir w1 rest rest' w' →
    resolves hostHomeDir w (mnt :: rest)
      (mkMount (Type_ mnt) (filepath.Join [wd; resolvePath hostHomeDir (Source mnt)])
               (resolvePath guestHomeDir (Target mnt)) :: rest') w'.

(** Two results of share parsing that differ at most in the order of the
    mounts: both are errors, or both are mount lists with the same mounts. *)
Definition same_up_to_order (a b : result (list Mount)) : Prop :=
  match a, b with
  | Ok ms1, Ok ms2 => ms1 ≡ₚ ms2
  | Err _, Err _ => True
  | _, _ => False
  end.

(** The source of [mnt] is an absolute path once the home directory is
    put in. *)
Definition absolute_source (hostHomeDir : string) (mnt : Mount) : Prop :=
  filepath.IsAbs (resolvePath hostHomeDir (Source mnt)) = true.

(** What [resolveMounts] makes of a mount whose source is absolute. *)
Definition resolve_absolute (hostHomeDir : string) (mnt : Mount) : Mount :=
  mkMount (Type_ mnt) (filepath.Clean (resolvePath hostHomeDir (Source mnt)))
          (resolvePath guestHomeDir (Target mnt)).

End Vocabulary.

(** ** Runs on the small engine *)

Section Samples.
Import Sim.

(** An image that declares a project root, one label in the reserved
    namespace, one outside it, and one share. *)
Definition sample_image : ImageInspect :=
  image_with {[ "sail.hat" := "hat"; "maintainer" := "bob"; "share.go" := "~/go:/go" ]}
             {[ "project_root" := "/data" ]}.

(** An image with a share on the target of the editor-server binary. *)
Definition shadowing_image : ImageInspect :=
  image_with {[ "share.bin" := "/opt/other/code-server:/usr/bin/code-server" ]} ∅.

(** An image with a malformed share. *)
Definition malformed_image : ImageInspect :=
  image_with {[ "share.bad" := "a:b:c" ]} ∅.

(** An image that sets the project-name control label. *)
Definition renaming_image : ImageInspect :=
  image_with {[ "sail.project_name" := "other" ]} ∅.

(** The world after [alice]'s container was created from the sample
    image. *)
Definition created : world := (runContainer alice "img" (fresh sample_image, [])).2.1.

(** A host on which no container starts. *)
Definition faulty (img : ImageInspect) : world :=
  {| images := {[ "img" := img ]}; containers := ∅; started := ∅;
     start_fault := Some (External "OCI runtime create failed");
     home := "/home/alice"; cwd := "/work" |}.

(** The create call of a run, if it made one. *)
Definition create_call (evs : list Event)
    : option (Config * HostConfig * NetworkingConfig * string * result string) :=
  match evs !! 4 with
  | Some (EvContainerCreate config hostConfig netConfig name resp) =>
      Some (config, hostConfig, netConfig, name, resp)
  | _ => None
  end.

(** A [range] that walks a map the other way round. *)
Definition backwards : MapRange := {|
  range_order := λ m, reverse (map_to_list m);
  range_order_perm := λ m, reverse_Permutation (map_to_list m);
|}.

(** An image with two shares. *)
Definition sharing_image : ImageInspect :=
  image_with {[ "share.go" := "~/go:/go"; "share.ssh" := "~/.ssh:~/.ssh" ]} ∅.

(** An image whose project root is the empty string. *)
Definition rootless_image : ImageInspect :=
  image_with ∅ {[ "project_root" := "" ]}.

(** A host whose home directory cannot be determined, and one whose
    working directory cannot. *)
Definition homeless_os : HostOS world := {|
  UserHomeDir := λ w, (Err (External "$HOME is not defined"), w);
  MkdirAll := λ _ _ w, (None, w);
  Getwd := λ w, (Ok (cwd w), w);
|}.

Definition lost_os : HostOS world := {|
  UserHomeDir := λ w, (Ok (home w), w);
  MkdirAll := λ _ _ w, (None, w);
  Getwd := λ w, (Err (External "getwd: no such file or directory"), w);
|}.

(** A host on which no directory can be created. *)
Definition readonly_os : HostOS world := {|
  UserHomeDir := λ w, (Ok (home w), w);
  MkdirAll := λ path _ w, (Some (External ("mkdir " +:+ path +:+ ": read-only file system")), w);
  Getwd := λ w, (Ok (cwd w), w);
|}.

(** A world without images, and one in which [alice]'s container exists
    without any label. *)
Definition empty_world : world :=
  {| images := ∅; containers := ∅; started := ∅; start_fault := None;
     home := "/home/alice"; cwd := "/work" |}.

Definition bare_container : ContainerJSON :=
  {| CntConfig := {| Hostname := "proj"; Cmd := []; Image := "img";
                     Labels := ∅; User := "1000:user" |};
     CntNetworkSettings :=
       {| Networks := {[ "sail" := {| NetworkID := "sail";
                                      IPAddress := "172.20.0.2" |} ]} |} |}.

Definition unlabelled : world :=
  {| images := ∅; containers := {[ "alice_proj" := bare_container ]};
     started := ∅; start_fault := None; home := "/home/alice"; cwd := "/work" |}.

End Samples.

(** * Properties *)

(** ** The library functions on small inputs *)

Example Split_share : strings.Split "/host/x:/guest/y" ":" = ["/host/x"; "/guest/y"].
Proof. reflexivity. Qed.

Example Split_two_colons : strings.Split "a:b:c" ":" = ["a"; "b"; "c"].
Proof. reflexivity. Qed.

Example Split_no_colon : strings.Split "noseparator" ":" = ["noseparator"].
Proof. reflexivity. Qed.

Example Split_long_separator : strings.Split "a, b, c" ", " = ["a"; "b"; "c"].
Proof. reflexivity. Qed.

Example Join_project_root : filepath.Join ["/data"; "proj"] = "/data/proj".
Proof. reflexivity. Qed.

Example Join_skips_empty : filepath.Join [""; "home"; ""; "user"] = "home/user".
Proof. reflexivity. Qed.

Example Clean_dots : filepath.Clean "/home/user/../alice/./x//y/" = "/home/alice/x/y".
Proof. reflexivity. Qed.

Example Clean_above_root : filepath.Clean "/../a" = "/a".
Proof. reflexivity. Qed.

Example Clean_relative : filepath.Clean "a/../../b" = "../b".
Proof. reflexivity. Qed.

Example first_occurrences_of_equal_mounts :
  first_occurrences
    [mkMount "bind" "a" "/x"; mkMount "bind" "b" "/y"; mkMount "bind" "a" "/x"] =
  [mkMount "bind" "a" "/x"; mkMount "bind" "b" "/y"].
Proof. reflexivity. Qed.

Example stripDuplicateMounts_drops_second :
  stripDuplicateMounts
    [mkMount "bind" "a" "/x"; mkMount "bind" "b" "/y"; mkMount "bind" "c" "/x"] =
  [mkMount "bind" "a" "/x"; mkMount "bind" "b" "/y"].
Proof. reflexivity. Qed.

(** ** Deduplication by target *)

Section Dedup.

Lemma stripDuplicateMounts_loop_first_seen mounts dests rmounts :
  stripDuplicateMounts_loop mounts dests rmounts = rmounts ++ first_seen dests mounts.
Proof.
  revert dests rmounts.
  induction mounts as [|mnt rest IH]; intros dests rmounts; simpl.
  - by rewrite app_nil_r.
  - case_decide; rewrite IH; [done|].
    by rewrite <- app_assoc.
Qed.

Lemma first_seen_target dests mounts mnt :
  mnt ∈ first_seen dests mounts → Target mnt ∉ dests.
Proof.
  revert dests. induction mounts as [|m rest IH]; intros dests; simpl.
  - by intros ?%elem_of_nil.
  - case_decide as Hin; [by apply IH|].
    intros [->|Hrest]%elem_of_cons; [done|].
    apply IH in Hrest. by apply not_elem_of_union in Hrest as [_ ?].
Qed.

Lemma first_seen_NoDup dests mounts : NoDup (Target <$> first_seen dests mounts).
Proof.
  revert dests. induction mounts as [|m rest IH]; intros dests; simpl.
  - constructor.
  - case_decide; [by apply IH|].
    rewrite fmap_cons. constructor; [|by apply IH].
    intros (m' & Heq & Hm')%list_elem_of_fmap.
    apply first_seen_target in Hm'.
    apply not_elem_of_union in Hm' as [Hm' _]. by apply not_elem_of_singleton in Hm'.
Qed.

Lemma first_seen_sublist dests mounts : first_seen dests mounts `sublist_of` mounts.
Proof.
  revert dests. induction mounts as [|m rest IH]; intros dests; simpl.
  - constructor.
  - case_decide; [apply sublist_cons|apply sublist_skip]; by apply IH.
Qed.

(** A mount is kept exactly when its target is new and no mount before
    it in the list has the same target. *)
Lemma first_seen_elem_of dests mounts mnt :
  mnt ∈ first_seen dests mounts ↔
  (Target mnt ∉ dests) ∧
  ∃ i, mounts !! i = Some mnt ∧
       ∀ j mnt', j < i → mounts !! j = Some mnt' → Target mnt' ≠ Target mnt.
Proof.
  revert dests. induction mounts as [|m rest IH]; intros dests; simpl.
  - split; [by intros ?%elem_of_nil|]. by intros (_ & i & ? & _).
  - case_decide as Hin.
    + rewrite IH. split.
      * intros (Hd & i & Hi & Hfirst). split; [done|].
        exists (S i). split; [done|].
        intros [|j] mnt' Hj Hlook; simpl in Hlook.
        -- injection Hlook as <-. congruence.
        -- eapply Hfirst; [|done]. lia.
      * intros (Hd & [|i] & Hi & Hfirst); simpl in Hi.
        -- injection Hi as ->. done.
        -- split; [done|]. exists i. split; [done|].
           intros j mnt' Hj Hlook. apply (Hfirst (S j)); [lia|done].
    + rewrite elem_of_cons, IH. split.
      * intros [->|(Hd & i & Hi & Hfirst)].
        -- split; [done|]. exists 0. split; [done|]. intros; lia.
        -- apply not_elem_of_union in Hd as [Hne%not_elem_of_singleton Hd].
           split; [done|]. exists (S i). split; [done|].
           intros [|j] mnt' Hj Hlook; simpl in Hlook.
           ++ injection Hlook as <-. congruence.
           ++ eapply Hfirst; [|done]. lia.
      * intros (Hd & [|i] & Hi & Hfirst); simpl in Hi.
        -- injection Hi as ->. by left.
        -- right. split.
           ++ assert (Target m ≠ Target mnt)
                by (apply (Hfirst 0); [lia|done]).
              apply not_elem_of_union. split; [|done].
              apply not_elem_of_singleton. congruence.
           ++ exists i. split; [done|].
              intros j mnt' Hj Hlook. apply (Hfirst (S j)); [lia|done].
Qed.

(** Every target of the list is still there after the pass, unless it
    had been seen before. *)
Lemma first_seen_targets dests mounts t :
  t ∈ Target <$> mounts → t ∉ dests → t ∈ Target <$> first_seen dests mounts.
Proof.
  revert dests. induction mounts as [|m rest IH]; intros dests; simpl.
  - by intros ?%elem_of_nil.
  - intros [->|Hrest]%elem_of_cons Hd.
    + rewrite decide_False by done. by left.
    + case_decide; [by apply IH|].
      destruct (decide (t = Target m)) as [->|Hne]; [by left|].
      right. apply IH; [done|].
      apply not_elem_of_union. split; [|done]. by apply not_elem_of_singleton.
Qed.

(** The loop keeps the mounts that stand at a first occurrence of their
    target, counted with the mounts [before] that the loop has passed. *)
Lemma first_seen_positions (before mounts : list Mount) :
  first_seen (list_to_set (Target <$> before)) mounts =
  omap (λ im : nat * Mount,
          if decide (Target im.2 ∈ Target <$> take im.1 (before ++ mounts)) then None
          else Some im.2)
       (imap (λ i mnt, (length before + i, mnt)) mounts).
Proof.
  revert before. induction mounts as [|m rest IH]; intros before; [done|].
  rewrite imap_cons. cbn [first_seen omap list_omap fst snd].
  rewrite Nat.add_0_r, take_app_length.
  assert (Hshift : imap ((λ i mnt, (length before + i, mnt)) ∘ S) rest =
                   imap (λ i mnt, (length (before ++ [m]) + i, mnt)) rest).
  { apply imap_ext. intros i mnt _. cbn. rewrite length_app. cbn. f_equal. lia. }
  rewrite Hshift. clear Hshift.
  specialize (IH (before ++ [m])). rewrite <- app_assoc in IH. cbn [app] in IH.
  rewrite <- IH. clear IH.
  assert (Hset : list_to_set (Target <$> before ++ [m]) =
                 ({[Target m]} ∪ list_to_set (Target <$> before) : gset string)).
  { apply set_eq. intros t.
    rewrite fmap_app, list_to_set_app, !elem_of_union. cbn.
    rewrite elem_of_union, elem_of_singleton, elem_of_empty. tauto. }
  destruct (decide (Target m ∈ (list_to_set (Target <$> before) : gset string)))
    as [Hin|Hin].
  - rewrite decide_True by (by apply elem_of_list_to_set in Hin).
    f_equal. rewrite Hset. apply set_eq. intros t.
    rewrite elem_of_union, elem_of_singleton. intuition (subst; tauto).
  - rewrite decide_False by (by rewrite <- (elem_of_list_to_set (C:=gset string))).
    by rewrite Hset.
Qed.

End Dedup.

(** C8. For every mount list, [stripDuplicateMounts] returns the mounts
    that stand at the first occurrence of their target, by positions: the
    mount at position [i] is kept exactly when no mount before position
    [i] has its target, and the mounts kept stand in the order of their
    positions. So the result has no two mounts with the same target, it
    keeps the original relative order, a mount is in it if and only if it
    stands in the input at a place before which no mount has its target,
    and every target of the input is a target of the result. *)
Theorem stripDuplicateMounts_keeps_first_occurrences (mounts : list Mount) :
  stripDuplicateMounts mounts = first_occurrences mounts ∧
  NoDup (Target <$> stripDuplicateMounts mounts) ∧
  stripDuplicateMounts mounts `sublist_of` mounts ∧
  (∀ mnt, mnt ∈ stripDuplicateMounts mounts ↔
          ∃ i, mounts !! i = Some mnt ∧
               ∀ j mnt', j < i → mounts !! j = Some mnt' → Target mnt' ≠ Target mnt) ∧
  (∀ t, t ∈ Target <$> mounts → t ∈ Target <$> stripDuplicateMounts mounts).
Proof.
  unfold stripDuplicateMounts.
  rewrite stripDuplicateMounts_loop_first_seen. simpl.
  split; [apply (first_seen_positions [] mounts)|].
  split; [apply first_seen_NoDup|].
  split; [apply first_seen_sublist|].
  split.
  - intros mnt. rewrite first_seen_elem_of. split; [by intros [_ ?]|].
    intros Hfirst. split; [apply not_elem_of_empty|done].
  - intros t Ht. apply first_seen_targets; [done|apply not_elem_of_empty].
Qed.

(** ** Splitting a share declaration on the colon *)

Section SplitColon.

Lemma append_snoc (s t : string) (c : ascii) :
  (s +:+ String c "") +:+ t = s +:+ String c t.
Proof.
  induction s as [|a s IH]; [done|].
  change (String a ((s +:+ String c "") +:+ t) = String a (s +:+ String c t)).
  by rewrite IH.
Qed.

Lemma append_empty_r (s : string) : s +:+ "" = s.
Proof.
  induction s as [|a s IH]; [done|].
  change (String a (s +:+ "") = String a s). by rewrite IH.
Qed.

Lemma prefix_colon (c : ascii) (s : string) :
  String.prefix ":" (String c s) = bool_decide (c = ":"%char).
Proof.
  change (String.prefix ":" (String c s)) with
    (match ascii_dec ":" c with left _ => String.prefix "" s | right _ => false end).
  destruct (ascii_dec ":" c) as [<-|Hne].
  - by destruct s.
  - by rewrite bool_decide_eq_false_2.
Qed.

Lemma colons_cons (c : ascii) (s : string) :
  colons (String c s) = (if decide (c = ":"%char) then 1 else 0) + colons s.
Proof. done. Qed.

Lemma split_from_colon_step (cur : string) (c : ascii) (s : string) :
  strings.split_from ":" 0 cur (String c s) =
  if decide (c = ":"%char) then cur :: strings.split_from ":" 0 "" s
  else strings.split_from ":" 0 (cur +:+ String c "") s.
Proof.
  change (strings.split_from ":" 0 cur (String c s)) with
    (if String.prefix ":" (String c s)
     then cur :: strings.split_from ":" 0 "" s
     else strings.split_from ":" 0 (cur +:+ String c "") s).
  rewrite prefix_colon. by case_decide; [rewrite bool_decide_eq_true_2|rewrite bool_decide_eq_false_2].
Qed.

Lemma split_from_colon_free (cur a : string) :
  colons a = 0 → strings.split_from ":" 0 cur a = [cur +:+ a].
Proof.
  revert cur. induction a as [|c a IH]; intros cur.
  - intros _. by rewrite append_empty_r.
  - rewrite colons_cons, split_from_colon_step.
    case_decide; [lia|]. intros Ha. rewrite IH by done.
    by rewrite append_snoc.
Qed.

Lemma split_from_colon_cut (cur a b : string) :
  colons a = 0 →
  strings.split_from ":" 0 cur (a +:+ String ":" b) =
  (cur +:+ a) :: strings.split_from ":" 0 "" b.
Proof.
  revert cur. induction a as [|c a IH]; intros cur.
  - intros _. change ("" +:+ String ":" b) with (String ":" b).
    rewrite split_from_colon_step, decide_True by done.
    by rewrite append_empty_r.
  - rewrite colons_cons. change (String c a +:+ String ":" b) with (String c (a +:+ String ":" b)).
    rewrite split_from_colon_step.
    case_decide; [lia|]. intros Ha. rewrite IH by done.
    by rewrite append_snoc.
Qed.

Lemma split_from_colon_length (cur s : string) :
  length (strings.split_from ":" 0 cur s) = S (colons s).
Proof.
  revert cur. induction s as [|c s IH]; intros cur; [done|].
  rewrite colons_cons, split_from_colon_step.
  case_decide; simpl; rewrite IH; lia.
Qed.

Lemma one_colon_cut (s : string) :
  colons s = 1 → ∃ a b, s = a +:+ String ":" b ∧ colons a = 0 ∧ colons b = 0.
Proof.
  induction s as [|c s IH]; [done|].
  rewrite colons_cons. case_decide as Hc.
  - intros Hs. exists "", s. subst c. split; [done|]. split; [done|lia].
  - intros (a & b & -> & Ha & Hb)%IH.
    exists (String c a), b. split; [done|]. split; [|done].
    rewrite colons_cons, decide_False by done. done.
Qed.

(** A value with exactly one colon splits into the text before the colon
    and the text after it. *)
Lemma Split_one_colon (v : string) :
  colons v = 1 →
  ∃ a b, v = a +:+ ":" +:+ b ∧ colons a = 0 ∧ colons b = 0 ∧
         strings.Split v ":" = [a; b].
Proof.
  intros (a & b & -> & Ha & Hb)%one_colon_cut.
  exists a, b. repeat split; [done..|].
  unfold strings.Split.
  by rewrite split_from_colon_cut, split_from_colon_free.
Qed.

(** Any other value splits into one token, or into three or more. *)
Lemma Split_not_two (v : string) :
  colons v ≠ 1 → length (strings.Split v ":") ≠ 2.
Proof.
  intros Hv. unfold strings.Split. rewrite split_from_colon_length. lia.
Qed.

End SplitColon.

(** ** Runs of the functions of runner.go *)

Section Runs.
Context {W : Type} `{!Docker W, !HostOS W, !Package W, !MapRange}.

#[local] Arguments filepath.Join : simpl never.
#[local] Arguments filepath.Clean : simpl never.
#[local] Arguments strings.Split : simpl never.

Lemma projectDir_run r image w tr :
  projectDir r image (w, tr) =
  let ans := ImageInspectWithRaw image w in
  (Done match ans.1 with
        | Err err => Err (Wrapf "failed to inspect image: %w" [] err)
        | Ok img => Ok (projectDir_of r img)
        end,
   (ans.2, tr ++ [EvImageInspect image ans.1])).
Proof.
  unfold projectDir, imageInspect, bind, engine, ret, projectDir_of. simpl.
  destruct (ImageInspectWithRaw image w) as [[img|err] w']; simpl; [|done].
  by destruct (Labels (ImageConfig img) !! "project_root").
Qed.

Lemma imageDefinedMounts_run r image ms w tr :
  imageDefinedMounts r image ms (w, tr) =
  let ans := ImageInspectWithRaw image w in
  (Done match ans.1 with
        | Err err => Err (Wrapf "failed to inspect %v: %w" [image] err)
        | Ok ins => imageDefinedMounts_loop (range_order (Labels (ContainerConfig ins))) ms
        end,
   (ans.2, tr ++ [EvImageInspect image ans.1])).
Proof.
  unfold imageDefinedMounts, imageInspect, bind, engine, ret. simpl.
  by destruct (ImageInspectWithRaw image w) as [[ins|err] w'].
Qed.

Lemma addImageDefinedLabels_run r image labels w tr :
  addImageDefinedLabels r image labels (w, tr) =
  let ans := ImageInspectWithRaw image w in
  (Done match ans.1 with
        | Err err => (labels, Some (Wrapf "failed to inspect %v: %w" [image] err))
        | Ok ins =>
            (addImageDefinedLabels_loop (range_order (Labels (ContainerConfig ins))) labels,
             None)
        end,
   (ans.2, tr ++ [EvImageInspect image ans.1])).
Proof.
  unfold addImageDefinedLabels, imageInspect, bind, engine, ret. simpl.
  by destruct (ImageInspectWithRaw image w) as [[ins|err] w'].
Qed.

Lemma filepath_Abs_run path w tr :
  ∃ w', filepath_Abs path (w, tr) =
        (Done (if filepath.IsAbs path then Ok (filepath.Clean path)
               else match (Getwd w).1 with
                    | Err err => Err err
                    | Ok wd => Ok (filepath.Join [wd; path])
                    end),
         (w', tr)).
Proof.
  unfold filepath_Abs. destruct (filepath.IsAbs path); [by eexists|].
  unfold bind, host, ret. cbn [fst snd].
  destruct (Getwd w) as [[wd|err] w']; by eexists.
Qed.

(** Path resolution makes no engine call; when it does not panic, every
    mount of the list has been resolved, in place. *)
Lemma resolveMounts_loop_run hostHomeDir ms w tr :
  ∃ res w', resolveMounts_loop hostHomeDir ms (w, tr) = (res, (w', tr)) ∧
            ∀ ms', res = Done ms' → Forall2 (resolved hostHomeDir) ms ms'.
Proof.
  revert w. induction ms as [|mnt rest IH]; intros w.
  - exists (Done []), w. split; [reflexivity|]. intros ms' [= <-]. constructor.
  - cbn [resolveMounts_loop]. unfold bind at 1.
    destruct (filepath_Abs_run (resolvePath hostHomeDir (Source mnt)) w tr) as [w1 ->].
    assert (Hsrc : ∀ src,
      (if filepath.IsAbs (resolvePath hostHomeDir (Source mnt))
       then Ok (filepath.Clean (resolvePath hostHomeDir (Source mnt)))
       else match (Getwd w).1 with
            | Err err => Err err
            | Ok wd => Ok (filepath.Join [wd; resolvePath hostHomeDir (Source mnt)])
            end) = Ok src →
      resolved hostHomeDir mnt
        (mkMount (Type_ mnt) src (resolvePath guestHomeDir (Target mnt)))).
    { intros src Hsrc. unfold resolved. simpl.
      split; [done|]. split; [done|].
      destruct (filepath.IsAbs _); [by injection Hsrc as <-|].
      destruct (Getwd w).1 as [wd|err]; [|done].
      injection Hsrc as <-. by eexists. }
    destruct (if filepath.IsAbs _ then _ else _) as [src|err].
    + unfold bind. destruct (IH w1) as (res & w2 & -> & Hall).
      destruct res as [ms'|p].
      * eexists _, w2. split; [reflexivity|]. intros ? [= <-].
        constructor; [by apply Hsrc|by apply Hall].
      * eexists _, w2. split; [reflexivity|]. done.
    + eexists _, w1. split; [reflexivity|]. done.
Qed.

Lemma resolveMounts_run r ms w tr :
  ∃ res w', resolveMounts r ms (w, tr) = (res, (w', tr)) ∧
            ∀ ms', res = Done ms' → ∃ hostHomeDir, Forall2 (resolved hostHomeDir) ms ms'.
Proof.
  unfold resolveMounts, bind, host. cbn [fst snd].
  destruct (UserHomeDir w) as [[hostHomeDir|err] w1].
  - destruct (resolveMounts_loop_run hostHomeDir ms w1 tr) as (res & w2 & -> & Hall).
    exists res, w2. split; [done|]. intros ms' ->. exists hostHomeDir. by apply Hall.
  - eexists _, w1. split; [reflexivity|]. done.
Qed.

(** The loop appends to the mounts it is given. *)
Lemma imageDefinedMounts_loop_app labels ms :
  imageDefinedMounts_loop labels ms =
  match imageDefinedMounts_loop labels [] with
  | Ok shares => Ok (ms ++ shares)
  | Err err => Err err
  end.
Proof.
  revert ms. induction labels as [|[k v] rest IH]; intros ms.
  - simpl. by rewrite app_nil_r.
  - cbn [imageDefinedMounts_loop].
    destruct (negb (strings.HasPrefix k "share.")); [by apply IH|].
    destruct (strings.Split v ":") as [|token0 [|token1 [|? ?]]]; try done.
    rewrite (IH (ms ++ _)), (IH ([] ++ _)).
    destruct (imageDefinedMounts_loop rest []); [|done].
    by rewrite <- app_assoc.
Qed.

(** A run of [mounts]: its engine calls are image inspections; when it
    returns a mount list, two inspections succeeded and the list is the
    resolution of the mounts given, the five built-in mounts and the
    image's shares, in this order; when the second inspection succeeded
    and a share is malformed, it returns the error of the share. *)
Lemma mounts_run r ms0 image w tr :
  ∃ res w' evs,
    mounts r ms0 image (w, tr) = (res, (w', tr ++ evs)) ∧
    Forall is_inspect evs ∧
    (∀ ms, res = Done (Ok ms) →
       ∃ bin hostHomeDir ins1 ins2 shares,
         evs = [EvImageInspect image (Ok ins1); EvImageInspect image (Ok ins2)] ∧
         imageDefinedMounts_loop (range_order (Labels (ContainerConfig ins2))) [] = Ok shares ∧
         Forall2 (resolved hostHomeDir)
           (ms0 ++ builtin_mounts r (metaRoot w).1 (projectDir_of r ins1) bin ++ shares) ms) ∧
    (∀ ev ins2 err,
       evs = [ev; EvImageInspect image (Ok ins2)] →
       imageDefinedMounts_loop (range_order (Labels (ContainerConfig ins2))) [] = Err err →
       res = Done (Err err)).
Proof.
  unfold mounts. unfold bind at 1, host at 1. cbn [fst snd].
  destruct (metaRoot w) as [root w1]. cbn [fst].
  unfold bind at 1, host at 1. cbn [fst snd].
  destruct (MkdirAll _ _ w1) as [[err|] w2].
  { eexists _, w2, []. rewrite app_nil_r. split; [reflexivity|].
    split; [constructor|]. split; [done|]. by intros ? ? ? ?. }
  unfold bind at 1. rewrite projectDir_run. cbn zeta.
  destruct (ImageInspectWithRaw image w2) as [[ins1|err] w3]; cbn [fst snd].
  2:{ eexists _, w3, [_]. split; [reflexivity|].
      split; [by repeat constructor|]. split; [done|]. by intros ? ? ? ?. }
  unfold bind at 1, host at 1. cbn [fst snd].
  destruct (loadCodeServer w3) as [[bin|err] w4].
  2:{ eexists _, w4, [_]. split; [reflexivity|].
      split; [by repeat constructor|]. split; [done|]. by intros ? ? ? ?. }
  unfold bind at 1. rewrite imageDefinedMounts_run. cbn zeta.
  destruct (ImageInspectWithRaw image w4) as [[ins2|err] w5]; cbn [fst snd].
  2:{ eexists _, w5, [_; _]. rewrite <- app_assoc. split; [reflexivity|].
      split; [by repeat constructor|]. split; [done|]. by intros ? ? ? [= _ ?]. }
  rewrite imageDefinedMounts_loop_app.
  destruct (imageDefinedMounts_loop _ []) as [shares|err] eqn:Hshares.
  2:{ eexists _, w5, [_; _]. rewrite <- app_assoc. split; [reflexivity|].
      split; [by repeat constructor|]. split; [done|].
      intros ? ? ? [= _ <-]. by rewrite Hshares; intros [= <-]. }
  unfold bind.
  match goal with
  | |- context [resolveMounts r ?ms (?w, ?t)] =>
      destruct (resolveMounts_run r ms w t) as (res & w6 & -> & Hres)
  end.
  destruct res as [ms|p].
  - eexists _, w6, [_; _]. rewrite <- app_assoc. split; [reflexivity|].
    split; [by repeat constructor|]. split.
    + intros ? [= <-]. destruct (Hres ms eq_refl) as [hostHomeDir Hall].
      exists bin, hostHomeDir, ins1, ins2, shares.
      split; [done|]. split; [done|].
      by rewrite <- !app_assoc in Hall.
    + intros ? ? ? [= _ <-]. by rewrite Hshares.
  - eexists _, w6, [_; _]. rewrite <- app_assoc. split; [reflexivity|].
    split; [by repeat constructor|]. split; [done|].
    intros ? ? ? [= _ <-]. by rewrite Hshares.
Qed.

End Runs.

(** ** Runs of runContainer *)

Section Create.
Context {W : Type} `{!Docker W, !HostOS W, !Package W, !MapRange}.

#[local] Arguments filepath.Join : simpl never.
#[local] Arguments filepath.Clean : simpl never.
#[local] Arguments strings.Split : simpl never.

(** A run of [runContainer] either stops before the create call, having
    made image inspections only, or it makes four successful image
    inspections and the create call, and, when the create call succeeds,
    the start call, which is the last call of the run. *)
Lemma runContainer_run r image w :
  ∃ res w' evs,
    runContainer r image (w, []) = (res, (w', evs)) ∧
    (Forall is_inspect evs ∨
     ∃ bin hostHomeDir ins1 ins2 ins3 ins4 shares ms cresp,
       imageDefinedMounts_loop (range_order (Labels (ContainerConfig ins2))) [] = Ok shares ∧
       Forall2 (resolved hostHomeDir)
         (builtin_mounts r (metaRoot w).1 (projectDir_of r ins1) bin ++ shares) ms ∧
       let inspects := [EvImageInspect image (Ok ins1); EvImageInspect image (Ok ins2);
                        EvImageInspect image (Ok ins3); EvImageInspect image (Ok ins4)] in
       match cresp with
       | Err err =>
           evs = inspects ++ [create_request r image ms ins3 ins4 cresp] ∧
           res = Done (Some (Wrapf "failed to create container: %w" [] err))
       | Ok _ =>
           ∃ sresp,
             evs = inspects ++ [create_request r image ms ins3 ins4 cresp;
                                EvContainerStart (cntName r) sresp] ∧
             res = Done match sresp with
                        | Some err => Some (Wrapf "failed to start container: %w" [] err)
                        | None => None
                        end
       end).
Proof.
  unfold runContainer. unfold bind at 1.
  destruct (mounts_run r [] image w []) as (mres & w1 & evs1 & -> & Hins1 & Hok & _).
  cbn [app] in *.
  destruct mres as [[ms|err]|p].
  2,3: by eexists _, _, _; split; [reflexivity|left].
  destruct (Hok ms eq_refl) as (bin & hostHomeDir & ins1 & ins2 & shares & -> & Hshares & Hall).
  clear Hok Hins1.
  unfold bind at 1. rewrite projectDir_run. cbn zeta.
  destruct (ImageInspectWithRaw image w1) as [[ins3|err] w2]; cbn [fst snd].
  2: by eexists _, _, _; split; [reflexivity|left; repeat constructor].
  unfold bind at 1. rewrite addImageDefinedLabels_run. cbn zeta.
  destruct (ImageInspectWithRaw image w2) as [[ins4|err] w3]; cbn [fst snd].
  2: by eexists _, _, _; split; [reflexivity|left; repeat constructor].
  unfold bind at 1, containerCreate, engine at 1. cbn [fst snd].
  destruct (ContainerCreate _ _ _ _ w3) as [[id|err] w4].
  - unfold bind, containerStart, engine. cbn [fst snd].
    destruct (ContainerStart (cntName r) w4) as [sresp w5].
    destruct sresp as [serr|].
    all: eexists _, w5, _; (split; [reflexivity|]); right.
    all: exists bin, hostHomeDir, ins1, ins2, ins3, ins4, shares, ms, (Ok id).
    all: split; [done|]; split; [done|]; by eexists.
  - eexists _, w4, _. split; [reflexivity|]. right.
    exists bin, hostHomeDir, ins1, ins2, ins3, ins4, shares, ms, (Err err).
    done.
Qed.

(** What the create call of a run was made with. *)
Lemma runContainer_create_inv r image w config hostConfig netConfig name resp :
  EvContainerCreate config hostConfig netConfig name resp ∈ calls (runContainer r image) w →
  ∃ bin hostHomeDir ins1 ins2 ins3 ins4 shares,
    imageDefinedMounts_loop (range_order (Labels (ContainerConfig ins2))) [] = Ok shares ∧
    Forall2 (resolved hostHomeDir)
      (builtin_mounts r (metaRoot w).1 (projectDir_of r ins1) bin ++ shares)
      (Mounts hostConfig) ∧
    EvContainerCreate config hostConfig netConfig name resp =
      create_request r image (Mounts hostConfig) ins3 ins4 resp ∧
    [EvImageInspect image (Ok ins1); EvImageInspect image (Ok ins2);
     EvImageInspect image (Ok ins3); EvImageInspect image (Ok ins4);
     EvContainerCreate config hostConfig netConfig name resp]
      `prefix_of` calls (runContainer r image) w.
Proof.
  unfold calls.
  destruct (runContainer_run r image w) as (res & w' & evs & -> & Hevs). cbn [snd].
  intros Hin. destruct Hevs as [Hins|Hrun].
  { rewrite Forall_forall in Hins. by apply Hins in Hin. }
  destruct Hrun as (bin & hostHomeDir & ins1 & ins2 & ins3 & ins4 & shares & ms & cresp
                    & Hshares & Hall & Hevs).
  cbn zeta in Hevs.
  assert (Hcreate : EvContainerCreate config hostConfig netConfig name resp =
                    create_request r image ms ins3 ins4 cresp ∧
                    [EvImageInspect image (Ok ins1); EvImageInspect image (Ok ins2);
                     EvImageInspect image (Ok ins3); EvImageInspect image (Ok ins4);
                     EvContainerCreate config hostConfig netConfig name resp]
                      `prefix_of` evs).
  { destruct cresp as [id|err].
    - destruct Hevs as (sresp & -> & _).
      cbn [app] in Hin. rewrite !elem_of_cons in Hin.
      destruct Hin as [?|[?|[?|[?|[Hin|[?|?%elem_of_nil]]]]]]; try done.
      split; [done|]. rewrite Hin. by eexists [_].
    - destruct Hevs as (-> & _).
      cbn [app] in Hin. rewrite !elem_of_cons in Hin.
      destruct Hin as [?|[?|[?|[?|[Hin|?%elem_of_nil]]]]]; try done.
      split; [done|]. rewrite Hin. by eexists []. }
  destruct Hcreate as [Hcreate Hprefix].
  assert (ms = Mounts hostConfig ∧ cresp = resp) as [-> ->]
    by (unfold create_request in Hcreate; by injection Hcreate as -> -> -> -> ->).
  by exists bin, hostHomeDir, ins1, ins2, ins3, ins4, shares.
Qed.

End Create.

(** ** The mounts of a run, answer by answer *)

Section MountsExact.
Context {W : Type} `{!Docker W, !HostOS W, !Package W, !MapRange}.

#[local] Arguments filepath.Join : simpl never.
#[local] Arguments filepath.Clean : simpl never.
#[local] Arguments strings.Split : simpl never.

Lemma resolves_resolved hostHomeDir w ms ms' w' :
  resolves hostHomeDir w ms ms' w' → Forall2 (resolved hostHomeDir) ms ms'.
Proof.
  induction 1 as [|w w' mnt rest rest' Habs _ IH|w w1 w' wd mnt rest rest' Hrel _ _ IH].
  - constructor.
  - constructor; [|done]. unfold resolved. cbn. by rewrite Habs.
  - constructor; [|done]. unfold resolved. cbn. rewrite Hrel. by eauto.
Qed.

(** When every source is absolute once the home directory is put in, the
    resolution is a function of the mounts and leaves the world alone. *)
Lemma resolves_absolute_sources hostHomeDir w ms ms' w' :
  Forall (absolute_source hostHomeDir) ms →
  resolves hostHomeDir w ms ms' w' →
  ms' = resolve_absolute hostHomeDir <$> ms ∧ w' = w.
Proof.
  intros Habs Hres.
  induction Hres as [|w w' mnt rest rest' _ _ IH|w w1 w' wd mnt rest rest' Hrel _ _ _].
  - done.
  - apply Forall_cons in Habs as [_ Habs]. destruct (IH Habs) as [-> ->]. done.
  - apply Forall_cons in Habs as [Habs _]. unfold absolute_source in Habs. congruence.
Qed.

Lemma resolveMounts_loop_resolves hostHomeDir ms w tr ms' w' tr' :
  resolveMounts_loop hostHomeDir ms (w, tr) = (Done ms', (w', tr')) →
  resolves hostHomeDir w ms ms' w' ∧ tr' = tr.
Proof.
  revert w ms'. induction ms as [|mnt rest IH]; intros w ms'.
  - intros [= <- <- <-]. split; [constructor|done].
  - cbn [resolveMounts_loop]. unfold bind at 1, filepath_Abs.
    destruct (filepath.IsAbs (resolvePath hostHomeDir (Source mnt))) eqn:Habs.
    + unfold ret at 1. unfold bind.
      destruct (resolveMounts_loop hostHomeDir rest (w, tr)) as [[rest'|p] [w1 tr1]] eqn:Hrest;
        [|done].
      intros [= <- <- <-]. destruct (IH _ _ Hrest) as [Hres ->].
      split; [|done]. by apply resolves_absolute.
    + unfold bind at 1, host. cbn [fst snd].
      destruct (Getwd w) as [[wd|err] w1] eqn:Hwd; [|done].
      unfold ret at 1. unfold bind.
      destruct (resolveMounts_loop hostHomeDir rest (w1, tr)) as [[rest'|p] [w2 tr2]] eqn:Hrest;
        [|done].
      intros [= <- <- <-]. destruct (IH _ _ Hrest) as [Hres ->].
      split; [|done]. by eapply resolves_relative.
Qed.

Lemma resolveMounts_resolves r ms w tr ms' w' tr' :
  resolveMounts r ms (w, tr) = (Done ms', (w', tr')) →
  ∃ hostHomeDir w1,
    UserHomeDir w = (Ok hostHomeDir, w1) ∧
    resolves hostHomeDir w1 ms ms' w' ∧ tr' = tr.
Proof.
  unfold resolveMounts, bind, host. cbn [fst snd].
  destruct (UserHomeDir w) as [[hostHomeDir|err] w1]; [|done].
  intros [Hres ->]%resolveMounts_loop_resolves. by exists hostHomeDir, w1.
Qed.

(** A run of [mounts] that returns a mount list, answer by answer. *)
Lemma mounts_run_exact r ms0 image w tr ms w' tr' :
  mounts r ms0 image (w, tr) = (Done (Ok ms), (w', tr')) →
  ∃ root w1 w2 img1 w3 bin w4 img2 w5 shares hostHomeDir w6,
    metaRoot w = (root, w1) ∧
    MkdirAll (filepath.Join [root; cntName r; "globalStorage"]) 488%N w1 = (None, w2) ∧
    ImageInspectWithRaw image w2 = (Ok img1, w3) ∧
    loadCodeServer w3 = (Ok bin, w4) ∧
    ImageInspectWithRaw image w4 = (Ok img2, w5) ∧
    imageDefinedMounts_loop (range_order (Labels (ContainerConfig img2))) [] = Ok shares ∧
    UserHomeDir w5 = (Ok hostHomeDir, w6) ∧
    resolves hostHomeDir w6
      (ms0 ++ builtin_mounts r root (projectDir_of r img1) bin ++ shares) ms w' ∧
    tr' = tr ++ [EvImageInspect image (Ok img1); EvImageInspect image (Ok img2)].
Proof.
  unfold mounts. unfold bind at 1, host at 1. cbn [fst snd].
  destruct (metaRoot w) as [root w1].
  unfold bind at 1, host at 1. cbn [fst snd].
  destruct (MkdirAll _ _ w1) as [[err|] w2] eqn:Hmkdir; [done|].
  unfold bind at 1. rewrite projectDir_run. cbn zeta.
  destruct (ImageInspectWithRaw image w2) as [[img1|err] w3] eqn:Himg1; cbn [fst snd];
    [|done].
  unfold bind at 1, host at 1. cbn [fst snd].
  destruct (loadCodeServer w3) as [[bin|err] w4] eqn:Hbin; [|done].
  unfold bind at 1. rewrite imageDefinedMounts_run. cbn zeta.
  destruct (ImageInspectWithRaw image w4) as [[img2|err] w5] eqn:Himg2; cbn [fst snd];
    [|done].
  rewrite imageDefinedMounts_loop_app.
  destruct (imageDefinedMounts_loop _ []) as [shares|err] eqn:Hshares; [|done].
  unfold bind.
  match goal with
  | |- context [resolveMounts r ?l ?st] =>
      destruct (resolveMounts r l st) as [[ms'|p] [w6 tr6]] eqn:Hres; [|done]
  end.
  intros [= <- <- <-].
  apply resolveMounts_resolves in Hres as (hostHomeDir & w7 & Hhome & Hres & ->).
  exists root, w1, w2, img1, w3, bin, w4, img2, w5, shares, hostHomeDir, w7.
  rewrite <- !app_assoc in Hres.
  repeat split; first [done|by rewrite <- app_assoc].
Qed.

(** The mounts of the create request of a run are the mounts that
    [mounts] returned in this run. *)
Lemma runContainer_request_mounts r image w config hostConfig netConfig name resp :
  EvContainerCreate config hostConfig netConfig name resp ∈ calls (runContainer r image) w →
  ∃ w1 tr1,
    mounts r [] image (w, []) = (Done (Ok (Mounts hostConfig)), (w1, tr1)) ∧
    tr1 `prefix_of` calls (runContainer r image) w.
Proof.
  unfold calls.
  destruct (runContainer r image (w, [])) as [res [w' trace]] eqn:Hrun. cbn [snd].
  revert Hrun. unfold runContainer. unfold bind at 1.
  destruct (mounts_run r [] image w []) as (mres & w1 & evs & Hmounts & Hins & _).
  rewrite Hmounts. cbn [app] in *. rewrite Forall_forall in Hins.
  destruct mres as [[ms|err]|p].
  2,3: by intros [= <- <- <-] ?%Hins.
  unfold bind at 1. rewrite projectDir_run. cbn zeta.
  destruct (ImageInspectWithRaw image w1) as [[ins3|err] w2]; cbn [fst snd].
  2:{ intros [= <- <- <-] [?%Hins|Hin]%elem_of_app; [done|].
      by apply list_elem_of_singleton in Hin. }
  unfold bind at 1. rewrite addImageDefinedLabels_run. cbn zeta.
  destruct (ImageInspectWithRaw image w2) as [[ins4|err] w3]; cbn [fst snd].
  2:{ intros [= <- <- <-] [[?%Hins|Hin]%elem_of_app|Hin]%elem_of_app; [done|..];
        by apply list_elem_of_singleton in Hin. }
  unfold bind at 1, containerCreate, engine at 1. cbn [fst snd].
  destruct (ContainerCreate _ _ _ _ w3) as [[id|err] w4].
  - unfold bind, containerStart, engine. cbn [fst snd].
    destruct (ContainerStart (cntName r) w4) as [[serr|] w5].
    all: intros [= <- <- <-].
    all: intros [[[[?%Hins|Hin]%elem_of_app|Hin]%elem_of_app|Hin]%elem_of_app|Hin]%elem_of_app;
      [done|..]; apply list_elem_of_singleton in Hin; try discriminate Hin.
    all: injection Hin as _ -> _ _ _; exists w1, evs; (split; [done|]).
    all: rewrite <- !app_assoc; by eexists.
  - intros [= <- <- <-].
    intros [[[?%Hins|Hin]%elem_of_app|Hin]%elem_of_app|Hin]%elem_of_app;
      [done|..]; apply list_elem_of_singleton in Hin; try discriminate Hin.
    injection Hin as _ -> _ _ _. exists w1, evs. split; [done|].
    rewrite <- !app_assoc. by eexists.
Qed.

End MountsExact.

(** ** The create path *)

Section CreateProperties.
Context {W : Type} `{!Docker W, !HostOS W, !Package W, !MapRange}.

(** C4. For every image and project name, the guest project directory
    that [projectDir] computes is the join of the value of the image's
    [project_root] label with the project name when the image has that
    label, and the join of the guest home directory with the project
    name when it has not. *)
Theorem projectDir_project_root_or_home (r : runner) (image : string) (w w' : W)
    (img : ImageInspect) :
  ImageInspectWithRaw image w = (Ok img, w') →
  returned (projectDir r image) w =
  Done (Ok match Labels (ImageConfig img) !! "project_root" with
           | Some proot => filepath.Join [proot; projectName r]
           | None => filepath.Join [guestHomeDir; projectName r]
           end).
Proof.
  intros Hins. unfold returned. rewrite projectDir_run, Hins. cbn [fst snd].
  unfold projectDir_of. by destruct (Labels (ImageConfig img) !! "project_root").
Qed.

(** C5. In every run of [runContainer] that makes the create call, the
    command of the container is [bash -c] applied to one string, which
    is ["cd <project dir>; <code-server invocation> 2>&1 | tee <log
    path>"] when the runner's test command is empty and ["<test
    command>; exit 1"] when it is not, where the project directory is the
    one computed from the third image inspection of the run. *)
Theorem runContainer_entry_command (r : runner) (image : string) (w : W)
    (config : Config) (hostConfig : HostConfig) (netConfig : NetworkingConfig)
    (name : string) (resp : result string) :
  EvContainerCreate config hostConfig netConfig name resp ∈ calls (runContainer r image) w →
  ∃ img,
    calls (runContainer r image) w !! 2 = Some (EvImageInspect image (Ok img)) ∧
    Cmd config =
    ["bash"; "-c";
     if decide (testCmd r = "")
     then "cd " +:+ projectDir_of r img +:+
          "; code-server --data-dir ~/.config/Code --extensions-dir ~/.vscode/extensions --allow-http --no-auth 2>&1 | tee "
          +:+ containerLogPath
     else testCmd r +:+ "; exit 1"].
Proof.
  intros (bin & hostHomeDir & ins1 & ins2 & ins3 & ins4 & shares & _ & _ & Hreq & Hpre)
    %runContainer_create_inv.
  exists ins3. split.
  - destruct Hpre as [rest ->]. done.
  - unfold create_request in Hreq. injection Hreq as -> _ _ _.
    cbn [Cmd]. unfold entry_command.
    destruct (decide (testCmd r = "")) as [Hempty|Hset].
    + by rewrite decide_False by (by intros []).
    + by rewrite decide_True.
Qed.

(** C7. In every run of [runContainer] in which the create call succeeds
    and the start call fails, [runContainer] returns the error of the
    start wrapped as "failed to start container", and the failed start
    is the last engine call of the run: before the create call there are
    image inspections only, and after the start call there is nothing,
    so the container that was created is neither removed nor rolled
    back. *)
Theorem runContainer_start_failure_no_rollback (r : runner) (image : string) (w : W)
    (config : Config) (hostConfig : HostConfig) (netConfig : NetworkingConfig)
    (name name' id : string) (err : error) :
  EvContainerCreate config hostConfig netConfig name (Ok id) ∈ calls (runContainer r image) w →
  EvContainerStart name' (Some err) ∈ calls (runContainer r image) w →
  returned (runContainer r image) w =
    Done (Some (Wrapf "failed to start container: %w" [] err)) ∧
  name = cntName r ∧ name' = cntName r ∧
  ∃ inspections,
    Forall is_inspect inspections ∧
    calls (runContainer r image) w =
      inspections ++ [EvContainerCreate config hostConfig netConfig name (Ok id);
                      EvContainerStart name' (Some err)].
Proof.
  unfold calls, returned.
  destruct (runContainer_run r image w) as (res & w' & evs & -> & Hevs). cbn [fst snd].
  intros Hcreate Hstart. destruct Hevs as [Hins|Hrun].
  { rewrite Forall_forall in Hins. by apply Hins in Hcreate. }
  destruct Hrun as (bin & hostHomeDir & ins1 & ins2 & ins3 & ins4 & shares & ms & cresp
                    & _ & _ & Hevs).
  cbn zeta in Hevs. destruct cresp as [id'|cerr].
  - destruct Hevs as (sresp & -> & ->).
    cbn [app] in Hcreate, Hstart. rewrite !elem_of_cons in Hcreate, Hstart.
    destruct Hcreate as [?|[?|[?|[?|[Hcreate|[?|?%elem_of_nil]]]]]]; try done.
    destruct Hstart as [?|[?|[?|[?|[?|[Hstart|?%elem_of_nil]]]]]]; try done.
    injection Hstart as -> <-.
    assert (name = cntName r) as ->
      by (unfold create_request in Hcreate; by injection Hcreate).
    split; [done|]. split; [done|]. split; [done|].
    exists [EvImageInspect image (Ok ins1); EvImageInspect image (Ok ins2);
            EvImageInspect image (Ok ins3); EvImageInspect image (Ok ins4)].
    split; [by repeat constructor|].
    by rewrite Hcreate.
  - destruct Hevs as (-> & _).
    cbn [app] in Hstart. rewrite !elem_of_cons in Hstart.
    by destruct Hstart as [?|[?|[?|[?|[?|?%elem_of_nil]]]]].
Qed.

(** C9. In every run of [runContainer] that makes the create call, the
    mounts of the request are, in this order, the editor configuration
    directory, the user extension directory, the global-storage directory of
    the container (under the metadata root that [metaRoot] answered, and
    created before), the project directory (for the first image
    inspection of the run), the editor-server binary (at the path that
    [loadCodeServer] answered) and then the shares declared by the image
    (those of the second image inspection of the run); and the path
    resolution is run after all of them are appended, over all of them:
    every source is resolved against the home directory that
    [os.UserHomeDir] answered after the second inspection and made
    absolute, with the working directory that [os.Getwd] answers at that
    mount when the path is not absolute yet, and every target is resolved
    against the guest home directory. *)
Theorem runContainer_mounts_order_then_resolution (r : runner) (image : string) (w : W)
    (config : Config) (hostConfig : HostConfig) (netConfig : NetworkingConfig)
    (name : string) (resp : result string) :
  EvContainerCreate config hostConfig netConfig name resp ∈ calls (runContainer r image) w →
  ∃ root w1 w2 img1 w3 codeServerBinPath w4 img2 w5 shares hostHomeDir w6 w7,
    metaRoot w = (root, w1) ∧
    MkdirAll (filepath.Join [root; cntName r; "globalStorage"]) 488%N w1 = (None, w2) ∧
    ImageInspectWithRaw image w2 = (Ok img1, w3) ∧
    loadCodeServer w3 = (Ok codeServerBinPath, w4) ∧
    ImageInspectWithRaw image w4 = (Ok img2, w5) ∧
    UserHomeDir w5 = (Ok hostHomeDir, w6) ∧
    calls (runContainer r image) w !! 0 = Some (EvImageInspect image (Ok img1)) ∧
    calls (runContainer r image) w !! 1 = Some (EvImageInspect image (Ok img2)) ∧
    imageDefinedMounts_loop (range_order (Labels (ContainerConfig img2))) [] = Ok shares ∧
    resolves hostHomeDir w6
      ([ mkMount "bind" "~/.config/Code" "~/.config/Code";
         mkMount "bind" "~/.vscode/extensions" "~/.vscode/extensions";
         mkMount "bind" (filepath.Join [root; cntName r; "globalStorage"])
                 "~/.local/share/code-server/globalStorage/";
         mkMount "bind" (projectLocalDir r) (projectDir_of r img1);
         mkMount "bind" codeServerBinPath "/usr/bin/code-server" ] ++ shares)
      (Mounts hostConfig) w7 ∧
    Forall2 (resolved hostHomeDir)
      ([ mkMount "bind" "~/.config/Code" "~/.config/Code";
         mkMount "bind" "~/.vscode/extensions" "~/.vscode/extensions";
         mkMount "bind" (filepath.Join [root; cntName r; "globalStorage"])
                 "~/.local/share/code-server/globalStorage/";
         mkMount "bind" (projectLocalDir r) (projectDir_of r img1);
         mkMount "bind" codeServerBinPath "/usr/bin/code-server" ] ++ shares)
      (Mounts hostConfig).
Proof.
  intros (w7 & tr1 & Hmounts & Hprefix)%runContainer_request_mounts.
  apply mounts_run_exact in Hmounts
    as (root & w1 & w2 & img1 & w3 & bin & w4 & img2 & w5 & shares & hostHomeDir & w6
        & Hroot & Hmkdir & Himg1 & Hbin & Himg2 & Hshares & Hhome & Hres & ->).
  cbn [app] in Hres, Hprefix.
  exists root, w1, w2, img1, w3, bin, w4, img2, w5, shares, hostHomeDir, w6, w7.
  destruct Hprefix as [rest ->].
  repeat split; try done. by apply resolves_resolved in Hres.
Qed.

(** *** Labels *)

Lemma HasPrefix_app (s t : string) : strings.HasPrefix (s +:+ t) s = true.
Proof.
  unfold strings.HasPrefix. induction s as [|a s IH]; [by destruct t|].
  change (match ascii_dec a a with
          | left _ => String.prefix s (s +:+ t)
          | right _ => false
          end = true).
  by destruct (ascii_dec a a).
Qed.

Lemma HasPrefix_refl (s : string) : strings.HasPrefix s s = true.
Proof. rewrite <- (append_empty_r s) at 1. apply HasPrefix_app. Qed.

Lemma sailLabel_ne_suffixed (suffix : string) :
  suffix ≠ "" → sailLabel ≠ sailLabel +:+ suffix.
Proof.
  intros Hne Heq. rewrite <- (append_empty_r sailLabel) in Heq at 1.
  by apply (inj (String.append sailLabel)) in Heq.
Qed.

Lemma suffixed_ne (suffix1 suffix2 : string) :
  suffix1 ≠ suffix2 → sailLabel +:+ suffix1 ≠ sailLabel +:+ suffix2.
Proof. intros Hne Heq. by apply (inj (String.append sailLabel)) in Heq. Qed.

(** The four fixed control labels. *)
Lemma control_labels_lookup r pd :
  control_labels r pd !! sailLabel = Some "" ∧
  control_labels r pd !! projectDirLabel = Some pd ∧
  control_labels r pd !! projectLocalDirLabel = Some (projectLocalDir r) ∧
  control_labels r pd !! projectNameLabel = Some (projectName r).
Proof.
  unfold control_labels, projectDirLabel, projectLocalDirLabel, projectNameLabel.
  repeat split.
  - rewrite !lookup_insert_ne by (by apply not_eq_sym, sailLabel_ne_suffixed).
    by rewrite lookup_insert_eq.
  - rewrite !lookup_insert_ne by (by apply suffixed_ne).
    by rewrite lookup_insert_eq.
  - rewrite lookup_insert_ne by (by apply suffixed_ne).
    by rewrite lookup_insert_eq.
  - by rewrite lookup_insert_eq.
Qed.

Lemma control_labels_reserved r pd k :
  strings.HasPrefix k sailLabel = false → control_labels r pd !! k = None.
Proof.
  intros Hk. unfold control_labels, projectDirLabel, projectLocalDirLabel, projectNameLabel.
  rewrite !lookup_insert_ne; [done|intros <-..].
  - by rewrite HasPrefix_refl in Hk.
  - by rewrite HasPrefix_app in Hk.
  - by rewrite HasPrefix_app in Hk.
  - by rewrite HasPrefix_app in Hk.
Qed.

Lemma control_labels_keys r pd k v :
  control_labels r pd !! k = Some v →
  k ∈ [sailLabel; projectDirLabel; projectLocalDirLabel; projectNameLabel].
Proof.
  unfold control_labels. rewrite !lookup_insert. rewrite !elem_of_cons.
  repeat case_decide; subst; auto. by rewrite lookup_empty.
Qed.

(** The loop of [addImageDefinedLabels] over labels with distinct keys:
    a key of the image in the reserved namespace gets the image's value,
    every other key keeps what the map had. *)
Lemma addImageDefinedLabels_loop_lookup (imageLabels : list (string * string))
    (labels : gmap string string) (k : string) :
  NoDup imageLabels.*1 →
  addImageDefinedLabels_loop imageLabels labels !! k =
  match (list_to_map imageLabels : gmap string string) !! k with
  | Some v => if strings.HasPrefix k sailLabel then Some v else labels !! k
  | None => labels !! k
  end.
Proof.
  revert labels. induction imageLabels as [|[k0 v0] rest IH]; intros labels Hnodup.
  - done.
  - rewrite fmap_cons in Hnodup. cbn [fst] in Hnodup.
    apply NoDup_cons in Hnodup as [Hk0 Hnodup].
    assert (Hrest : (list_to_map rest : gmap string string) !! k0 = None)
      by (by apply not_elem_of_list_to_map_1).
    cbn [addImageDefinedLabels_loop list_to_map foldr].
    destruct (decide (k = k0)) as [->|Hne].
    + rewrite lookup_insert_eq.
      destruct (strings.HasPrefix k0 sailLabel) eqn:Hprefix; cbn [negb];
        rewrite IH, Hrest by done; [by rewrite lookup_insert_eq|done].
    + rewrite lookup_insert_ne by done.
      destruct (strings.HasPrefix k0 sailLabel); cbn [negb]; rewrite IH by done;
        [by rewrite lookup_insert_ne|done].
Qed.

Lemma addImageDefinedLabels_range_lookup (imageLabels labels : gmap string string)
    (k : string) :
  addImageDefinedLabels_loop (range_order imageLabels) labels !! k =
  match imageLabels !! k with
  | Some v => if strings.HasPrefix k sailLabel then Some v else labels !! k
  | None => labels !! k
  end.
Proof.
  pose proof (range_order_perm imageLabels) as Hperm.
  assert (Hnodup : NoDup (range_order imageLabels).*1).
  { rewrite Hperm. apply NoDup_fst_map_to_list. }
  rewrite addImageDefinedLabels_loop_lookup by done.
  by rewrite (list_to_map_proper _ _ Hnodup Hperm), list_to_map_to_list.
Qed.

(** C6. In every run of [runContainer] that makes the create call, the
    labels of the request hold the four fixed control labels (the
    presence marker, the project directory, the local project directory
    and the project name), each with its fixed value unless the image
    has a label with that key, and every label of the image (as the
    fourth image inspection of the run reports it) whose key starts with
    the reserved prefix, with its key and value unchanged; a key that
    does not start with the reserved prefix is never among the labels,
    and every label present is a fixed one or one of the image. *)
Theorem runContainer_labels (r : runner) (image : string) (w : W)
    (config : Config) (hostConfig : HostConfig) (netConfig : NetworkingConfig)
    (name : string) (resp : result string) :
  EvContainerCreate config hostConfig netConfig name resp ∈ calls (runContainer r image) w →
  ∃ img3 img4,
    calls (runContainer r image) w !! 2 = Some (EvImageInspect image (Ok img3)) ∧
    calls (runContainer r image) w !! 3 = Some (EvImageInspect image (Ok img4)) ∧
    let imageLabels := Labels (ContainerConfig img4) in
    (is_Some (Labels config !! sailLabel) ∧
     is_Some (Labels config !! projectDirLabel) ∧
     is_Some (Labels config !! projectLocalDirLabel) ∧
     is_Some (Labels config !! projectNameLabel)) ∧
    ((imageLabels !! sailLabel = None → Labels config !! sailLabel = Some "") ∧
     (imageLabels !! projectDirLabel = None →
      Labels config !! projectDirLabel = Some (projectDir_of r img3)) ∧
     (imageLabels !! projectLocalDirLabel = None →
      Labels config !! projectLocalDirLabel = Some (projectLocalDir r)) ∧
     (imageLabels !! projectNameLabel = None →
      Labels config !! projectNameLabel = Some (projectName r))) ∧
    (∀ k v, imageLabels !! k = Some v → strings.HasPrefix k sailLabel = true →
            Labels config !! k = Some v) ∧
    (∀ k, strings.HasPrefix k sailLabel = false → Labels config !! k = None) ∧
    (∀ k v, Labels config !! k = Some v →
            k ∈ [sailLabel; projectDirLabel; projectLocalDirLabel; projectNameLabel] ∨
            imageLabels !! k = Some v).
Proof.
  intros (bin & hostHomeDir & ins1 & ins2 & ins3 & ins4 & shares & _ & _ & Hreq & Hpre)
    %runContainer_create_inv.
  exists ins3, ins4.
  split; [by destruct Hpre as [rest ->]|]. split; [by destruct Hpre as [rest ->]|].
  unfold create_request in Hreq. injection Hreq as -> _ _ _.
  cbn [Labels]. cbn zeta.
  destruct (control_labels_lookup r (projectDir_of r ins3)) as (Hsail & Hdir & Hlocal & Hname).
  assert (Hfixed : ∀ k v0, control_labels r (projectDir_of r ins3) !! k = Some v0 →
    strings.HasPrefix k sailLabel = true →
    is_Some (addImageDefinedLabels_loop (range_order (Labels (ContainerConfig ins4)))
               (control_labels r (projectDir_of r ins3)) !! k) ∧
    (Labels (ContainerConfig ins4) !! k = None →
     addImageDefinedLabels_loop (range_order (Labels (ContainerConfig ins4)))
       (control_labels r (projectDir_of r ins3)) !! k = Some v0)).
  { intros k v0 Hk Hprefix. rewrite addImageDefinedLabels_range_lookup, Hprefix, Hk.
    destruct (Labels (ContainerConfig ins4) !! k); by eauto. }
  pose proof (Hfixed _ _ Hsail (HasPrefix_refl _)) as [? ?].
  pose proof (Hfixed _ _ Hdir (HasPrefix_app _ _)) as [? ?].
  pose proof (Hfixed _ _ Hlocal (HasPrefix_app _ _)) as [? ?].
  pose proof (Hfixed _ _ Hname (HasPrefix_app _ _)) as [? ?].
  split; [done|]. split; [done|]. split; [|split].
  - intros k v Hk Hprefix. by rewrite addImageDefinedLabels_range_lookup, Hk, Hprefix.
  - intros k Hprefix. rewrite addImageDefinedLabels_range_lookup, Hprefix.
    rewrite control_labels_reserved by done.
    by destruct (Labels (ContainerConfig ins4) !! k).
  - intros k v. rewrite addImageDefinedLabels_range_lookup.
    destruct (Labels (ContainerConfig ins4) !! k) as [v'|] eqn:Hk.
    + destruct (strings.HasPrefix k sailLabel).
      * intros [= ->]. by right.
      * intros ?%control_labels_keys. by left.
    + intros ?%control_labels_keys. by left.
Qed.

(** C10. In every run of [runContainer] that makes the create call, when
    the image (as the fourth image inspection of the run reports it) has
    a label whose key is one of the four fixed control labels, the
    request carries the image's value for that key, not the fixed one:
    the labels of the image are copied after the fixed labels are set. *)
Theorem runContainer_image_label_overwrites_control_label (r : runner) (image : string)
    (w : W) (config : Config) (hostConfig : HostConfig) (netConfig : NetworkingConfig)
    (name : string) (resp : result string) :
  EvContainerCreate config hostConfig netConfig name resp ∈ calls (runContainer r image) w →
  ∃ img4,
    calls (runContainer r image) w !! 3 = Some (EvImageInspect image (Ok img4)) ∧
    ∀ k v,
      k ∈ [sailLabel; projectDirLabel; projectLocalDirLabel; projectNameLabel] →
      Labels (ContainerConfig img4) !! k = Some v →
      Labels config !! k = Some v.
Proof.
  intros (bin & hostHomeDir & ins1 & ins2 & ins3 & ins4 & shares & _ & _ & Hreq & Hpre)
    %runContainer_create_inv.
  exists ins4. split; [by destruct Hpre as [rest ->]|].
  unfold create_request in Hreq. injection Hreq as -> _ _ _. cbn [Labels].
  intros k v Hk Himg. rewrite addImageDefinedLabels_range_lookup, Himg.
  assert (strings.HasPrefix k sailLabel = true) as ->; [|done].
  rewrite !elem_of_cons in Hk.
  destruct Hk as [->|[->|[->|[->|?%elem_of_nil]]]];
    [apply HasPrefix_refl|apply HasPrefix_app..|done].
Qed.

End CreateProperties.

(** ** Share declarations *)

Section Shares.
Context {W : Type} `{!Docker W, !HostOS W, !Package W, !MapRange}.

#[local] Arguments strings.Split : simpl never.

Lemma imageDefinedMounts_loop_well_formed labels ms :
  well_formed labels →
  ∃ shares, imageDefinedMounts_loop labels ms = Ok (ms ++ shares) ∧
            Forall2 declares (filter (λ kv, is_share kv = true) labels) shares.
Proof.
  revert ms. induction labels as [|[k v] rest IH]; intros ms Hwf.
  - exists []. rewrite app_nil_r. split; [done|]. constructor.
  - assert (Hrest : well_formed rest)
      by (intros kv Hkv; apply Hwf; by right).
    cbn [imageDefinedMounts_loop].
    destruct (strings.HasPrefix k "share.") eqn:Hprefix; cbn [negb].
    + destruct (Split_one_colon v) as (a & b & Hv & _ & _ & Hsplit).
      { apply (Hwf (k, v)); [by left|done]. }
      rewrite Hsplit, filter_cons_True by done.
      destruct (IH (ms ++ [mkMount TypeBind a b]) Hrest) as (shares & -> & Hall).
      exists (mkMount TypeBind a b :: shares). rewrite <- app_assoc. split; [done|].
      constructor; [|done]. by repeat split.
    + rewrite filter_cons_False by (unfold is_share; cbn [fst]; by rewrite Hprefix).
      by apply IH.
Qed.

Lemma imageDefinedMounts_loop_first_malformed pre k v post ms :
  well_formed pre → strings.HasPrefix k "share." = true → colons v ≠ 1 →
  imageDefinedMounts_loop (pre ++ (k, v) :: post) ms = Err (Errorf "invalid share %q" [v]).
Proof.
  intros Hwf Hprefix Hv. revert ms.
  induction pre as [|[k0 v0] pre IH]; intros ms.
  - cbn [app imageDefinedMounts_loop]. rewrite Hprefix. cbn [negb].
    apply Split_not_two in Hv.
    by destruct (strings.Split v ":") as [|token0 [|token1 [|? ?]]].
  - assert (Hpre : well_formed pre)
      by (intros kv Hkv; apply Hwf; by right).
    cbn [app imageDefinedMounts_loop].
    destruct (strings.HasPrefix k0 "share.") eqn:Hprefix0; cbn [negb]; [|by apply IH].
    destruct (Split_one_colon v0) as (a & b & _ & _ & _ & ->).
    { apply (Hwf (k0, v0)); [by left|done]. }
    by apply IH.
Qed.

(** Among labels that are not all well formed there is a first
    malformed share. *)
Lemma first_malformed labels :
  ¬ well_formed labels →
  ∃ pre k v post, labels = pre ++ (k, v) :: post ∧ well_formed pre ∧
                  strings.HasPrefix k "share." = true ∧ colons v ≠ 1.
Proof.
  induction labels as [|[k v] rest IH]; intros Hbad.
  - destruct Hbad. by intros kv ?%elem_of_nil.
  - destruct (decide (strings.HasPrefix k "share." = true ∧ colons v ≠ 1)) as [[? ?]|Hgood].
    + exists [], k, v, rest. split; [done|]. split; [|done]. by intros kv ?%elem_of_nil.
    + destruct IH as (pre & k' & v' & post & -> & Hpre & Hk' & Hv').
      { intros Hrest. apply Hbad. intros kv [->|Hkv]%elem_of_cons Hshare; [|by apply Hrest].
        unfold is_share in Hshare. cbn [fst snd] in *.
        destruct (decide (colons v = 1)); [done|]. by destruct Hgood. }
      exists ((k, v) :: pre), k', v', post. split; [done|]. split; [|done].
      intros kv [->|Hkv]%elem_of_cons Hshare; [|by apply Hpre].
      unfold is_share in Hshare. cbn [fst snd] in *.
      destruct (decide (colons v = 1)); [done|]. by destruct Hgood.
Qed.

(** C2. When the inspection of the image succeeds, [imageDefinedMounts]
    goes through the labels whose key has the share prefix and splits the
    value of each on the colon. When every such value has exactly one
    colon, it returns the mounts it was given followed by one bind mount
    for each share, in the order of the labels, with the first token as
    source and the second as target. Otherwise it returns the error
    "invalid share" with the raw value of the first share, in the order
    of the labels, whose value has no colon or more than one; [mounts]
    then returns this error as it is. *)
Theorem imageDefinedMounts_share_parsing (r : runner) (image : string) (ms : list Mount)
    (w w' : W) (ins : ImageInspect) :
  ImageInspectWithRaw image w = (Ok ins, w') →
  let labels := range_order (Labels (ContainerConfig ins)) in
  (well_formed labels →
   ∃ shares,
     returned (imageDefinedMounts r image ms) w = Done (Ok (ms ++ shares)) ∧
     Forall2 declares (filter (λ kv, is_share kv = true) labels) shares) ∧
  (∀ pre k v post,
     labels = pre ++ (k, v) :: post → well_formed pre →
     strings.HasPrefix k "share." = true → colons v ≠ 1 →
     returned (imageDefinedMounts r image ms) w =
       Done (Err (Errorf "invalid share %q" [v])) ∧
     ∀ r0 ms0 w0 ev,
       calls (mounts r0 ms0 image) w0 = [ev; EvImageInspect image (Ok ins)] →
       returned (mounts r0 ms0 image) w0 = Done (Err (Errorf "invalid share %q" [v]))) ∧
  (¬ well_formed labels →
   ∃ k v, (k, v) ∈ labels ∧ strings.HasPrefix k "share." = true ∧ colons v ≠ 1 ∧
          returned (imageDefinedMounts r image ms) w =
            Done (Err (Errorf "invalid share %q" [v]))).
Proof.
  intros Hins labels.
  assert (Hrun : returned (imageDefinedMounts r image ms) w =
                 Done (imageDefinedMounts_loop labels ms)).
  { unfold returned. by rewrite imageDefinedMounts_run, Hins. }
  rewrite Hrun. split; [|split].
  - intros Hwf. destruct (imageDefinedMounts_loop_well_formed labels ms Hwf)
      as (shares & -> & Hall). by exists shares.
  - intros pre k v post Hlabels Hpre Hk Hv. rewrite Hlabels.
    rewrite imageDefinedMounts_loop_first_malformed by done. split; [done|].
    intros r0 ms0 w0 ev. unfold calls, returned.
    destruct (mounts_run r0 ms0 image w0 []) as (res & w1 & evs & -> & _ & _ & Herr).
    cbn [fst snd app]. intros ->. apply (Herr ev ins); [done|].
    fold labels. rewrite Hlabels.
    by apply imageDefinedMounts_loop_first_malformed.
  - intros (pre & k & v & post & Hlabels & Hpre & Hk & Hv)%first_malformed.
    exists k, v. rewrite Hlabels at 1 2.
    rewrite imageDefinedMounts_loop_first_malformed by done.
    split; [|done]. apply elem_of_app. right. by left.
Qed.

End Shares.

(** ** The recovery path *)

Section Recovery.
Context {W : Type} `{!Docker W, !HostOS W, !Package W, !MapRange}.

Lemma runnerFromContainer_run name network w :
  runnerFromContainer name network (w, []) =
  let inspected := ContainerInspect name w in
  match inspected.1 with
  | Err err =>
      (Done (Err (Wrapf "failed to inspect %v: %w" [name] err)),
       (inspected.2, [EvContainerInspect name inspected.1]))
  | Ok cnt =>
      let looked := ContainerIP name inspected.2 in
      (Done match looked.1 with
            | Err err => Err (Wrapf "failed to get container %s IP: %w" [name] err)
            | Ok addr =>
                Ok {| cntName := name;
                      projectName := default "" (Labels (CntConfig cnt) !! projectNameLabel);
                      hostname := Hostname (CntConfig cnt);
                      projectLocalDir :=
                        default "" (Labels (CntConfig cnt) !! projectLocalDirLabel);
                      hostUser := User (CntConfig cnt);
                      network := network;
                      ip := addr;
                      testCmd := "" |}
            end,
       (looked.2, [EvContainerInspect name inspected.1; EvContainerIP name looked.1]))
  end.
Proof.
  unfold runnerFromContainer, containerInspect, containerIP.
  unfold bind at 1, engine at 1. cbn [fst snd app].
  destruct (ContainerInspect name w) as [[cnt|err] w1]; cbn [fst snd]; [|done].
  unfold bind, engine. cbn [fst snd app].
  by destruct (ContainerIP name w1) as [[addr|err] w2].
Qed.

(** C3, as the code has it. Recovery inspects the container and then
    looks up its IP, both by the container name. When the stored
    configuration carries the project-name label and the local-dir label
    and both calls succeed, the runner returned has exactly the stored
    project name, local directory, hostname and user string, the IP that
    the lookup answered, and the network it was given. When the
    inspection fails, or the lookup fails, no runner is returned, only an
    error that wraps the failure with the container name, a different one
    for each of the two. The network given is recorded in the runner and
    is not passed to the lookup: with another network the same calls are
    made and the same IP is returned. *)
Theorem runnerFromContainer_all_or_nothing (name network : string) (w : W) :
  (∀ cnt w1 addr w2 P D,
     ContainerInspect name w = (Ok cnt, w1) →
     Labels (CntConfig cnt) !! projectNameLabel = Some P →
     Labels (CntConfig cnt) !! projectLocalDirLabel = Some D →
     ContainerIP name w1 = (Ok addr, w2) →
     returned (runnerFromContainer name network) w =
       Done (Ok {| cntName := name; projectName := P;
                   hostname := Hostname (CntConfig cnt); projectLocalDir := D;
                   hostUser := User (CntConfig cnt); network := network;
                   ip := addr; testCmd := "" |}) ∧
     calls (runnerFromContainer name network) w =
       [EvContainerInspect name (Ok cnt); EvContainerIP name (Ok addr)]) ∧
  (∀ err w1,
     ContainerInspect name w = (Err err, w1) →
     returned (runnerFromContainer name network) w =
       Done (Err (Wrapf "failed to inspect %v: %w" [name] err)) ∧
     calls (runnerFromContainer name network) w = [EvContainerInspect name (Err err)]) ∧
  (∀ cnt w1 err w2,
     ContainerInspect name w = (Ok cnt, w1) →
     ContainerIP name w1 = (Err err, w2) →
     returned (runnerFromContainer name network) w =
       Done (Err (Wrapf "failed to get container %s IP: %w" [name] err))) ∧
  (∀ network',
     calls (runnerFromContainer name network') w =
       calls (runnerFromContainer name network) w ∧
     ∀ r, returned (runnerFromContainer name network) w = Done (Ok r) →
          returned (runnerFromContainer name network') w =
            Done (Ok {| cntName := cntName r; projectName := projectName r;
                        hostname := hostname r; projectLocalDir := projectLocalDir r;
                        hostUser := hostUser r; network := network';
                        ip := ip r; testCmd := testCmd r |})).
Proof.
  unfold returned, calls. split; [|split; [|split]].
  - intros cnt w1 addr w2 P D Hcnt HP HD Hip.
    rewrite runnerFromContainer_run. cbn zeta. rewrite Hcnt. cbn [fst snd].
    by rewrite Hip, HP, HD.
  - intros err w1 Hcnt.
    rewrite runnerFromContainer_run. cbn zeta. by rewrite Hcnt.
  - intros cnt w1 err w2 Hcnt Hip.
    rewrite runnerFromContainer_run. cbn zeta. rewrite Hcnt. cbn [fst snd].
    by rewrite Hip.
  - intros network'. rewrite !runnerFromContainer_run. cbn zeta.
    destruct (ContainerInspect name w) as [[cnt|err] w1]; cbn [fst snd]; [|done].
    destruct (ContainerIP name w1) as [[addr|err] w2]; cbn [fst snd]; [|done].
    split; [done|]. by intros r [= <-].
Qed.

End Recovery.

(** ** The claims on the small engine *)

Section OnTheSmallEngine.
Import Sim.

(** C1. On a host whose image declares the share
    [/opt/other/code-server:/usr/bin/code-server], the mount list that
    [runContainer] hands to the engine has two mounts with the target
    [/usr/bin/code-server], the built-in one and the share:
    [stripDuplicateMounts], which would drop the share, is not applied. *)
Theorem runContainer_keeps_colliding_share :
  ∃ config hostConfig netConfig name resp,
    create_call (calls (runContainer alice "img") (fresh shadowing_image)) =
      Some (config, hostConfig, netConfig, name, resp) ∧
    Mounts hostConfig =
      [ mkMount "bind" "/home/alice/.config/Code" "/home/user/.config/Code";
        mkMount "bind" "/home/alice/.vscode/extensions" "/home/user/.vscode/extensions";
        mkMount "bind" "/home/alice/.local/share/sail/alice_proj/globalStorage"
                "/home/user/.local/share/code-server/globalStorage/";
        mkMount "bind" "/home/alice/Projects/proj" "/home/user/proj";
        mkMount "bind" "/home/alice/.cache/sail/code-server" "/usr/bin/code-server";
        mkMount "bind" "/opt/other/code-server" "/usr/bin/code-server" ] ∧
    ¬ NoDup (Target <$> Mounts hostConfig) ∧
    stripDuplicateMounts (Mounts hostConfig) =
      [ mkMount "bind" "/home/alice/.config/Code" "/home/user/.config/Code";
        mkMount "bind" "/home/alice/.vscode/extensions" "/home/user/.vscode/extensions";
        mkMount "bind" "/home/alice/.local/share/sail/alice_proj/globalStorage"
                "/home/user/.local/share/code-server/globalStorage/";
        mkMount "bind" "/home/alice/Projects/proj" "/home/user/proj";
        mkMount "bind" "/home/alice/.cache/sail/code-server" "/usr/bin/code-server" ].
Proof.
  eexists _, _, _, _, _. split; [vm_compute; reflexivity|].
  split; [reflexivity|]. split; [|vm_compute; reflexivity].
  cbn [Mounts fmap list_fmap Target]. rewrite !NoDup_cons.
  intros (_ & _ & _ & _ & Hdup & _). apply Hdup. by left.
Qed.

(** The malformed share [a:b:c] is rejected by name; the share [~/go:/go]
    gives one bind mount. *)
Lemma imageDefinedMounts_share_parsing_witness :
  ImageInspectWithRaw "img" (fresh malformed_image) =
    (Ok malformed_image, fresh malformed_image) ∧
  returned (imageDefinedMounts alice "img" []) (fresh malformed_image) =
    Done (Err (Errorf "invalid share %q" ["a:b:c"])) ∧
  returned (imageDefinedMounts alice "img" []) (fresh sample_image) =
    Done (Ok [mkMount "bind" "~/go" "/go"]).
Proof.
  split; [reflexivity|]. split.
  - assert (Hins : ImageInspectWithRaw "img" (fresh malformed_image) =
                   (Ok malformed_image, fresh malformed_image)) by reflexivity.
    destruct (imageDefinedMounts_share_parsing alice "img" [] (fresh malformed_image)
                (fresh malformed_image) malformed_image Hins) as (_ & Hbad & _).
    apply (Hbad [] "share.bad" "a:b:c" []).
    + vm_compute. reflexivity.
    + intros kv Hkv. inversion Hkv.
    + reflexivity.
    + vm_compute. discriminate.
  - assert (Hins : ImageInspectWithRaw "img" (fresh sample_image) =
                   (Ok sample_image, fresh sample_image)) by reflexivity.
    destruct (imageDefinedMounts_share_parsing alice "img" [] (fresh sample_image)
                (fresh sample_image) sample_image Hins) as (Hgood & _ & _).
    assert (Hlabels : range_order (Labels (ContainerConfig sample_image)) =
              [("sail.hat", "hat"); ("share.go", "~/go:/go"); ("maintainer", "bob")])
      by (vm_compute; reflexivity).
    destruct Hgood as (shares & -> & Hshares).
    + intros kv Hkv. rewrite Hlabels in Hkv. rewrite !elem_of_cons in Hkv.
      destruct Hkv as [->|[->|[->|Hkv]]]; [discriminate|reflexivity|discriminate|].
      inversion Hkv.
    + rewrite Hlabels in Hshares. vm_compute in Hshares.
      inversion Hshares as [|kv mnt rest shares' (Htype & Hsplit & _) Hrest]; subst.
      inversion Hrest; subst. destruct mnt as [ty src tgt]. cbn in Htype, Hsplit.
      vm_compute in Hsplit. injection Hsplit as <- <-. by subst ty.
Defined.

(** With [project_root=/data] the project directory is [/data/proj];
    without the label it is [/home/user/proj]. *)
Lemma projectDir_project_root_or_home_witness :
  ImageInspectWithRaw "img" (fresh sample_image) = (Ok sample_image, fresh sample_image) ∧
  returned (projectDir alice "img") (fresh sample_image) = Done (Ok "/data/proj") ∧
  returned (projectDir alice "img") (fresh malformed_image) = Done (Ok "/home/user/proj").
Proof.
  split; [reflexivity|]. split.
  - assert (Hins : ImageInspectWithRaw "img" (fresh sample_image) =
                   (Ok sample_image, fresh sample_image)) by reflexivity.
    rewrite (projectDir_project_root_or_home alice "img" (fresh sample_image)
               (fresh sample_image) sample_image Hins).
    vm_compute. reflexivity.
  - assert (Hins : ImageInspectWithRaw "img" (fresh malformed_image) =
                   (Ok malformed_image, fresh malformed_image)) by reflexivity.
    rewrite (projectDir_project_root_or_home alice "img" (fresh malformed_image)
               (fresh malformed_image) malformed_image Hins).
    vm_compute. reflexivity.
Defined.

(** The entry command of a run without a test command. *)
Lemma runContainer_entry_command_witness :
  ∃ config hostConfig netConfig name resp,
    create_call (calls (runContainer alice "img") (fresh sample_image)) =
      Some (config, hostConfig, netConfig, name, resp) ∧
    Cmd config =
      ["bash"; "-c";
       "cd /data/proj; code-server --data-dir ~/.config/Code --extensions-dir ~/.vscode/extensions --allow-http --no-auth 2>&1 | tee /tmp/code-server.log"].
Proof.
  eexists _, _, _, _, _. split; [vm_compute; reflexivity|].
  pose proof (runContainer_entry_command alice "img" (fresh sample_image) _ _ _ _ _
                ltac:(apply list_elem_of_lookup_2 with 4; vm_compute; reflexivity))
    as (img & Himg & HCmd).
  rewrite HCmd. vm_compute in Himg. injection Himg as <-. vm_compute. reflexivity.
Defined.

(** The label [sail.hat] of the image is copied, [maintainer] is not, and
    the project name keeps its fixed value. *)
Lemma runContainer_labels_witness :
  ∃ config hostConfig netConfig name resp,
    create_call (calls (runContainer alice "img") (fresh sample_image)) =
      Some (config, hostConfig, netConfig, name, resp) ∧
    Labels config !! "sail.hat" = Some "hat" ∧
    Labels config !! "maintainer" = None ∧
    Labels config !! "sail.project_name" = Some "proj".
Proof.
  eexists _, _, _, _, _. split; [vm_compute; reflexivity|].
  pose proof (runContainer_labels alice "img" (fresh sample_image) _ _ _ _ _
                ltac:(apply list_elem_of_lookup_2 with 4; vm_compute; reflexivity))
    as (img3 & img4 & _ & Himg4 & _ & (_ & _ & _ & Hname) & Hcopy & Hnone & _).
  vm_compute in Himg4. injection Himg4 as <-.
  split; [|split].
  - apply Hcopy; [vm_compute|]; reflexivity.
  - apply Hnone. reflexivity.
  - apply Hname. vm_compute. reflexivity.
Defined.

(** An image that sets [sail.project_name] wins over the runner's project
    name. *)
Lemma runContainer_image_label_overwrites_control_label_witness :
  ∃ config hostConfig netConfig name resp,
    create_call (calls (runContainer alice "img") (fresh renaming_image)) =
      Some (config, hostConfig, netConfig, name, resp) ∧
    projectName alice = "proj" ∧
    Labels config !! "sail.project_name" = Some "other".
Proof.
  eexists _, _, _, _, _. split; [vm_compute; reflexivity|]. split; [reflexivity|].
  pose proof (runContainer_image_label_overwrites_control_label alice "img"
                (fresh renaming_image) _ _ _ _ _
                ltac:(apply list_elem_of_lookup_2 with 4; vm_compute; reflexivity))
    as (img4 & Himg4 & Hover).
  vm_compute in Himg4. injection Himg4 as <-.
  apply Hover; [|vm_compute; reflexivity].
  apply list_elem_of_lookup_2 with 3. reflexivity.
Defined.

(** On a host where the start fails, the run ends with the failed
    start. *)
Lemma runContainer_start_failure_no_rollback_witness :
  returned (runContainer alice "img") (faulty sample_image) =
    Done (Some (Wrapf "failed to start container: %w" []
                  (External "OCI runtime create failed"))) ∧
  last (calls (runContainer alice "img") (faulty sample_image)) =
    Some (EvContainerStart "alice_proj" (Some (External "OCI runtime create failed"))).
Proof.
  pose proof (runContainer_start_failure_no_rollback alice "img" (faulty sample_image)
                _ _ _ _ _ _ _
                ltac:(apply list_elem_of_lookup_2 with 4; vm_compute; reflexivity)
                ltac:(apply list_elem_of_lookup_2 with 5; vm_compute; reflexivity))
    as (Hret & _ & _ & inspections & _ & Hcalls).
  split; [exact Hret|].
  rewrite Hcalls. rewrite last_app. reflexivity.
Defined.

(** The mounts of a run, in order, after resolution: the sources lie
    under the home directory of the host, the targets under that of the
    guest. *)
Lemma runContainer_mounts_order_then_resolution_witness :
  ∃ config hostConfig netConfig name resp,
    create_call (calls (runContainer alice "img") (fresh sample_image)) =
      Some (config, hostConfig, netConfig, name, resp) ∧
    Mounts hostConfig =
      [ mkMount "bind" "/home/alice/.config/Code" "/home/user/.config/Code";
        mkMount "bind" "/home/alice/.vscode/extensions" "/home/user/.vscode/extensions";
        mkMount "bind" "/home/alice/.local/share/sail/alice_proj/globalStorage"
                "/home/user/.local/share/code-server/globalStorage/";
        mkMount "bind" "/home/alice/Projects/proj" "/data/proj";
        mkMount "bind" "/home/alice/.cache/sail/code-server" "/usr/bin/code-server";
        mkMount "bind" "/home/alice/go" "/go" ].
Proof.
  eexists _, _, _, _, _. split; [vm_compute; reflexivity|].
  pose proof (runContainer_mounts_order_then_resolution alice "img" (fresh sample_image)
                _ _ _ _ _
                ltac:(apply list_elem_of_lookup_2 with 4; vm_compute; reflexivity))
    as (root & w1 & w2 & img1 & w3 & bin & w4 & img2 & w5 & shares & hostHomeDir & w6 & w7
        & Hroot & Hmkdir & Himg1 & Hbin & Himg2 & Hhome & _ & _ & Hshares & Hres & _).
  injection Hroot as <- <-. injection Hmkdir as <-.
  injection Himg1 as <- <-. injection Hbin as <- <-.
  injection Himg2 as <- <-. injection Hhome as <- <-.
  vm_compute in Hshares. injection Hshares as <-.
  apply resolves_absolute_sources in Hres as [-> _].
  - vm_compute. reflexivity.
  - repeat constructor.
Defined.

(** C3, as stated, fails: recovery of [alice]'s container with the
    network [other] returns a runner with the address the container has
    on the network [sail], while the container has no address on the
    network given. *)
Lemma runnerFromContainer_ip_not_on_given_network :
  ∃ r cnt,
    returned (runnerFromContainer "alice_proj" "other") created = Done (Ok r) ∧
    network r = "other" ∧ ip r = "172.20.0.2" ∧
    ContainerInspect "alice_proj" created = (Ok cnt, created) ∧
    Networks (CntNetworkSettings cnt) !! "other" = None ∧
    Networks (CntNetworkSettings cnt) !! "sail" =
      Some {| NetworkID := "sail"; IPAddress := "172.20.0.2" |}.
Proof.
  eexists _, _. split; [vm_compute; reflexivity|].
  split; [reflexivity|]. split; [reflexivity|].
  split; [vm_compute; reflexivity|].
  split; vm_compute; reflexivity.
Qed.

(** Recovery of [alice]'s container, and of a container that does not
    exist. *)
Lemma runnerFromContainer_all_or_nothing_witness :
  returned (runnerFromContainer "alice_proj" "sail") created =
    Done (Ok {| cntName := "alice_proj"; projectName := "proj"; hostname := "proj";
                projectLocalDir := "~/Projects/proj"; hostUser := "1000:user";
                network := "sail"; ip := "172.20.0.2"; testCmd := "" |}) ∧
  returned (runnerFromContainer "nobody" "sail") created =
    Done (Err (Wrapf "failed to inspect %v: %w" ["nobody"]
                 (External "No such container: nobody"))).
Proof.
  split.
  - destruct (runnerFromContainer_all_or_nothing "alice_proj" "sail" created)
      as (Hok & _ & _ & _).
    edestruct Hok as [Hret _]; [vm_compute; reflexivity..|].
    rewrite Hret. reflexivity.
  - destruct (runnerFromContainer_all_or_nothing "nobody" "sail" created)
      as (_ & Hfail & _ & _).
    edestruct Hfail as [Hret _]; [vm_compute; reflexivity|].
    rewrite Hret. reflexivity.
Defined.

End OnTheSmallEngine.


(** * Further properties *)

(** ** Deduplication, continued *)

Section DedupMore.

Lemma first_seen_filter (seen below : gset string) (mounts : list Mount) :
  first_seen (seen ∪ below) mounts =
  filter (λ mnt, Target mnt ∉ seen) (first_seen below mounts).
Proof.
  revert below. induction mounts as [|m rest IH]; intros below; [done|].
  cbn [first_seen].
  destruct (decide (Target m ∈ below)) as [Hbelow|Hbelow].
  - rewrite decide_True by (apply elem_of_union; by right). apply IH.
  - destruct (decide (Target m ∈ seen)) as [Hseen|Hseen].
    + rewrite decide_True by (apply elem_of_union; by left).
      rewrite filter_cons_False by (by intros []).
      rewrite <- IH. f_equal. apply set_eq. intros t.
      rewrite !elem_of_union, elem_of_singleton. intuition (subst; tauto).
    + rewrite decide_False by (rewrite elem_of_union; by intros [|]).
      rewrite filter_cons_True by done.
      rewrite <- IH. do 2 f_equal. apply set_eq. intros t.
      rewrite !elem_of_union, elem_of_singleton. intuition (subst; tauto).
Qed.

Lemma first_seen_app (dests : gset string) (mounts1 mounts2 : list Mount) :
  first_seen dests (mounts1 ++ mounts2) =
  first_seen dests mounts1 ++
  first_seen (list_to_set (Target <$> mounts1) ∪ dests) mounts2.
Proof.
  revert dests. induction mounts1 as [|m rest IH]; intros dests.
  - cbn [app fmap list_fmap list_to_set first_seen]. f_equal.
    apply set_eq. intros t. rewrite elem_of_union, elem_of_empty. intuition (subst; tauto).
  - cbn [app first_seen]. rewrite fmap_cons, list_to_set_cons.
    destruct (decide (Target m ∈ dests)) as [Hin|Hin].
    + rewrite IH. do 2 f_equal. apply set_eq. intros t.
      rewrite !elem_of_union, elem_of_singleton. intuition (subst; tauto).
    + rewrite IH. cbn [app]. do 3 f_equal. apply set_eq. intros t.
      rewrite !elem_of_union, elem_of_singleton. intuition (subst; tauto).
Qed.

Lemma first_seen_id (dests : gset string) (mounts : list Mount) :
  NoDup (Target <$> mounts) →
  (∀ mnt, mnt ∈ mounts → Target mnt ∉ dests) →
  first_seen dests mounts = mounts.
Proof.
  revert dests. induction mounts as [|m rest IH]; intros dests Hnodup Hnew; [done|].
  rewrite fmap_cons in Hnodup. apply NoDup_cons in Hnodup as [Hm Hnodup].
  cbn [first_seen]. rewrite decide_False by (apply Hnew; by left).
  f_equal. apply IH; [done|].
  intros mnt Hmnt. rewrite elem_of_union, elem_of_singleton.
  intros [Heq|Hin].
  - apply Hm. rewrite <- Heq. by apply list_elem_of_fmap_2.
  - by apply (Hnew mnt); [right|].
Qed.

(** X1. A list is left as it is by [stripDuplicateMounts] exactly when
    no two of its mounts have the same target. *)
Theorem stripDuplicateMounts_fixed_point (mounts : list Mount) :
  stripDuplicateMounts mounts = mounts ↔ NoDup (Target <$> mounts).
Proof.
  unfold stripDuplicateMounts. rewrite stripDuplicateMounts_loop_first_seen.
  cbn [app]. split.
  - intros <-. apply first_seen_NoDup.
  - intros Hnodup. apply first_seen_id; [done|]. intros mnt _. apply not_elem_of_empty.
Qed.

(** X2. [stripDuplicateMounts] is idempotent. *)
Theorem stripDuplicateMounts_idempotent (mounts : list Mount) :
  stripDuplicateMounts (stripDuplicateMounts mounts) = stripDuplicateMounts mounts.
Proof.
  unfold stripDuplicateMounts. rewrite !stripDuplicateMounts_loop_first_seen.
  cbn [app]. apply first_seen_id; [apply first_seen_NoDup|].
  intros mnt _. apply not_elem_of_empty.
Qed.

(** X3. On two lists put one after the other, [stripDuplicateMounts]
    keeps what it keeps of the first list, and of the second list what it
    keeps of it alone less the mounts whose target occurs in the first
    list: a mount of the first list is never displaced by one of the
    second. *)
Theorem stripDuplicateMounts_app (mounts1 mounts2 : list Mount) :
  stripDuplicateMounts (mounts1 ++ mounts2) =
  stripDuplicateMounts mounts1 ++
  filter (λ mnt, Target mnt ∉ Target <$> mounts1) (stripDuplicateMounts mounts2).
Proof.
  unfold stripDuplicateMounts. rewrite !stripDuplicateMounts_loop_first_seen.
  cbn [app]. rewrite first_seen_app, first_seen_filter. f_equal.
  apply list_filter_iff. intros mnt. by rewrite elem_of_list_to_set.
Qed.

(** X4. [stripDuplicateMounts] returns as many mounts as the list has
    distinct targets. *)
Theorem stripDuplicateMounts_length (mounts : list Mount) :
  length (stripDuplicateMounts mounts) =
  size (list_to_set (Target <$> mounts) : gset string).
Proof.
  unfold stripDuplicateMounts. rewrite stripDuplicateMounts_loop_first_seen.
  cbn [app].
  rewrite <- (length_fmap Target (first_seen ∅ mounts)).
  rewrite <- (size_list_to_set (C:=gset string)) by apply first_seen_NoDup.
  f_equal. apply set_eq. intros t. rewrite !elem_of_list_to_set. split.
  - intros (mnt & -> & Hmnt)%list_elem_of_fmap.
    apply list_elem_of_fmap_2. eapply elem_of_sublist; [done|].
    apply first_seen_sublist.
  - intros Ht. apply first_seen_targets; [done|apply not_elem_of_empty].
Qed.

End DedupMore.

(** ** Labels and shares, whatever the order of the map *)

Section Order.
Context {W : Type} `{!Docker W, !HostOS W, !Package W}.

#[local] Arguments strings.Split : simpl never.

(** X5. When the image inspection succeeds, [addImageDefinedLabels]
    leaves in the map the labels of the image whose key starts with the
    reserved prefix, laid over what the map held, and returns no error,
    whatever the order in which the labels are walked; when the inspection
    fails, the map is left as it was and the error names the image. *)
Theorem addImageDefinedLabels_overlay `{!MapRange} (r : runner) (image : string)
    (labels : gmap string string) (w : W) :
  (∀ ins w',
     ImageInspectWithRaw image w = (Ok ins, w') →
     returned (addImageDefinedLabels r image labels) w =
       Done (filter (λ kv, strings.HasPrefix kv.1 sailLabel = true)
                    (Labels (ContainerConfig ins)) ∪ labels, None)) ∧
  (∀ err w',
     ImageInspectWithRaw image w = (Err err, w') →
     returned (addImageDefinedLabels r image labels) w =
       Done (labels, Some (Wrapf "failed to inspect %v: %w" [image] err))).
Proof.
  unfold returned. split.
  - intros ins w' Hins. rewrite addImageDefinedLabels_run, Hins. cbn [fst snd].
    do 2 f_equal. apply map_eq. intros k.
    rewrite addImageDefinedLabels_range_lookup, lookup_union, map_lookup_filter.
    destruct (Labels (ContainerConfig ins) !! k) as [v|]; cbn;
      [|by destruct (labels !! k)].
    destruct (strings.HasPrefix k sailLabel) eqn:Hprefix.
    + rewrite option_guard_True by done. cbn. by destruct (labels !! k).
    + unfold strings.HasPrefix in Hprefix.
      rewrite option_guard_False by congruence. cbn. by destruct (labels !! k).
  - intros err w' Hins. by rewrite addImageDefinedLabels_run, Hins.
Qed.

Lemma same_up_to_order_refl (a : result (list Mount)) : same_up_to_order a a.
Proof. by destruct a; cbn. Qed.

Lemma same_up_to_order_trans (a b c : result (list Mount)) :
  same_up_to_order a b → same_up_to_order b c → same_up_to_order a c.
Proof.
  destruct a, b, c; cbn; try done. intros ??. by etrans.
Qed.

Lemma imageDefinedMounts_loop_Permutation (labels1 labels2 : list (string * string)) :
  labels1 ≡ₚ labels2 →
  ∀ ms, same_up_to_order (imageDefinedMounts_loop labels1 ms)
                         (imageDefinedMounts_loop labels2 ms).
Proof.
  induction 1 as [|[k v] l1 l2 _ IH|[k1 v1] [k2 v2] l|l1 l2 l3 _ IH1 _ IH2]; intros ms.
  - apply same_up_to_order_refl.
  - cbn [imageDefinedMounts_loop].
    destruct (negb (strings.HasPrefix k "share.")); [apply IH|].
    destruct (strings.Split v ":") as [|token0 [|token1 [|? ?]]]; first [done|apply IH].
  - cbn [imageDefinedMounts_loop].
    destruct (negb (strings.HasPrefix k1 "share.")), (negb (strings.HasPrefix k2 "share.")).
    + apply same_up_to_order_refl.
    + destruct (strings.Split v2 ":") as [|a1 [|b1 [|? ?]]];
        first [done|apply same_up_to_order_refl].
    + destruct (strings.Split v1 ":") as [|a1 [|b1 [|? ?]]];
        first [done|apply same_up_to_order_refl].
    + destruct (strings.Split v1 ":") as [|a1 [|b1 [|? ?]]],
               (strings.Split v2 ":") as [|a2 [|b2 [|? ?]]]; try done.
      rewrite (imageDefinedMounts_loop_app l ((ms ++ _) ++ _)).
      rewrite (imageDefinedMounts_loop_app l ((ms ++ [mkMount TypeBind a1 b1]) ++ _)).
      destruct (imageDefinedMounts_loop l []) as [shares|]; cbn; [|done].
      rewrite <- !app_assoc. f_equiv. cbn [app]. apply Permutation_swap.
  - eapply same_up_to_order_trans; [apply IH1|apply IH2].
Qed.

(** X6. The order in which the labels of the image are walked decides
    neither whether [imageDefinedMounts] fails nor which mounts it
    returns, only the order of the mounts (and, among several malformed
    shares, which one the error names). *)
Theorem imageDefinedMounts_order (range1 range2 : MapRange) (r : runner) (image : string)
    (ms : list Mount) (w : W) :
  ∃ a b,
    returned (@imageDefinedMounts W _ range1 r image ms) w = Done a ∧
    returned (@imageDefinedMounts W _ range2 r image ms) w = Done b ∧
    same_up_to_order a b.
Proof.
  unfold returned. rewrite !imageDefinedMounts_run. cbn zeta.
  destruct (ImageInspectWithRaw image w) as [[ins|err] w']; cbn [fst snd].
  - eexists _, _. split; [done|]. split; [done|].
    apply imageDefinedMounts_loop_Permutation.
    by rewrite !range_order_perm.
  - by eexists _, _.
Qed.

End Order.

(** ** Path resolution *)

Section Resolution.
Context {W : Type} `{!Docker W, !HostOS W, !Package W, !MapRange}.

#[local] Arguments filepath.Join : simpl never.
#[local] Arguments filepath.Clean : simpl never.

Lemma resolveMounts_loop_absolute hostHomeDir ms w tr :
  Forall (absolute_source hostHomeDir) ms →
  resolveMounts_loop hostHomeDir ms (w, tr) =
  (Done (resolve_absolute hostHomeDir <$> ms), (w, tr)).
Proof.
  induction 1 as [|mnt rest Habs _ IH]; [done|].
  cbn [resolveMounts_loop]. unfold bind at 1, filepath_Abs.
  unfold absolute_source in Habs. rewrite Habs. unfold ret at 1.
  unfold bind. by rewrite IH.
Qed.

Lemma resolveMounts_loop_getwd_failure hostHomeDir pre mnt post w tr err w' :
  Forall (absolute_source hostHomeDir) pre →
  ¬ absolute_source hostHomeDir mnt →
  Getwd w = (Err err, w') →
  resolveMounts_loop hostHomeDir (pre ++ mnt :: post) (w, tr) =
  (Panicked (PanicSprintf "failed to resolve %v: %v" [""] err), (w', tr)).
Proof.
  intros Hpre Hrel Hwd. induction Hpre as [|m rest Habs _ IH].
  - cbn [app resolveMounts_loop]. unfold bind at 1, filepath_Abs.
    unfold absolute_source in Hrel.
    destruct (filepath.IsAbs (resolvePath hostHomeDir (Source mnt))); [done|].
    unfold bind, host. cbn [fst snd]. by rewrite Hwd.
  - cbn [app resolveMounts_loop]. unfold bind at 1, filepath_Abs.
    unfold absolute_source in Habs. rewrite Habs. unfold ret at 1.
    unfold bind. by rewrite IH.
Qed.

(** X7. When the host home directory is known and the source of every
    mount is an absolute path once the home directory is put in,
    [resolveMounts] does not panic and makes no engine call; it returns
    the mounts in the same order and number, each with its type kept, its
    source cleaned and its target resolved against the guest home
    directory, and the working directory is never asked for. *)
Theorem resolveMounts_absolute_sources (r : runner) (ms : list Mount) (w w1 : W)
    (tr : list Event) (hostHomeDir : string) :
  UserHomeDir w = (Ok hostHomeDir, w1) →
  Forall (absolute_source hostHomeDir) ms →
  resolveMounts r ms (w, tr) =
  (Done ((λ mnt, mkMount (Type_ mnt)
                         (filepath.Clean (resolvePath hostHomeDir (Source mnt)))
                         (resolvePath guestHomeDir (Target mnt))) <$> ms),
   (w1, tr)).
Proof.
  intros Hhome Habs. unfold resolveMounts, bind, host. cbn [fst snd].
  rewrite Hhome. by apply resolveMounts_loop_absolute.
Qed.

(** X8. [resolveMounts] panics, without any engine call, in two cases:
    with the error of [os.UserHomeDir] when the host home directory cannot
    be determined, whatever the mounts, even none; and, at the first mount
    whose source is not absolute, when the working directory cannot be
    determined: then the message is formatted with an empty string in the
    place of the source, which the failed [filepath.Abs] has already
    overwritten. *)
Theorem resolveMounts_panics (r : runner) (ms : list Mount) (w : W) (tr : list Event) :
  (∀ err w1,
     UserHomeDir w = (Err err, w1) →
     resolveMounts r ms (w, tr) = (Panicked (PanicErr err), (w1, tr))) ∧
  (∀ hostHomeDir w1 pre mnt post err w2,
     UserHomeDir w = (Ok hostHomeDir, w1) →
     ms = pre ++ mnt :: post →
     Forall (absolute_source hostHomeDir) pre →
     ¬ absolute_source hostHomeDir mnt →
     Getwd w1 = (Err err, w2) →
     resolveMounts r ms (w, tr) =
       (Panicked (PanicSprintf "failed to resolve %v: %v" [""] err), (w2, tr))).
Proof.
  split.
  - intros err w1 Hhome. unfold resolveMounts, bind, host. cbn [fst snd].
    by rewrite Hhome.
  - intros hostHomeDir w1 pre mnt post err w2 Hhome -> Hpre Hrel Hwd.
    unfold resolveMounts, bind, host. cbn [fst snd]. rewrite Hhome.
    by apply resolveMounts_loop_getwd_failure.
Qed.

End Resolution.

(** ** How runs of mounts and runContainer end *)

Section Endings.
Context {W : Type} `{!Docker W, !HostOS W, !Package W, !MapRange}.

#[local] Arguments filepath.Join : simpl never.
#[local] Arguments filepath.Clean : simpl never.
#[local] Arguments strings.Split : simpl never.

(** The ways a run of [mounts] ends, by the engine calls it made. *)
Lemma mounts_run_cases r ms0 image w tr :
  ∃ res w' evs,
    mounts r ms0 image (w, tr) = (res, (w', tr ++ evs)) ∧
    ((evs = [] ∧ ∃ err, res = Done (Err err)) ∨
     (∃ err, evs = [EvImageInspect image (Err err)] ∧
             res = Done (Err (Wrapf "failed to inspect image: %w" [] err))) ∨
     (∃ ins1 err, evs = [EvImageInspect image (Ok ins1)] ∧
                  res = Done (Err (Wrapf "failed to load code-server: %w" [] err))) ∨
     (∃ ins1 err, evs = [EvImageInspect image (Ok ins1); EvImageInspect image (Err err)] ∧
                  res = Done (Err (Wrapf "failed to inspect %v: %w" [image] err))) ∨
     (∃ ins1 ins2, evs = [EvImageInspect image (Ok ins1); EvImageInspect image (Ok ins2)] ∧
        ((∃ err, imageDefinedMounts_loop (range_order (Labels (ContainerConfig ins2))) [] =
                   Err err ∧ res = Done (Err err)) ∨
         (∃ shares, imageDefinedMounts_loop (range_order (Labels (ContainerConfig ins2))) [] =
                      Ok shares ∧
                    ((∃ p, res = Panicked p) ∨ (∃ ms, res = Done (Ok ms))))))).
Proof.
  unfold mounts. unfold bind at 1, host at 1. cbn [fst snd].
  destruct (metaRoot w) as [root w1].
  unfold bind at 1, host at 1. cbn [fst snd].
  destruct (MkdirAll _ _ w1) as [[err|] w2].
  { eexists _, w2, []. rewrite app_nil_r. split; [reflexivity|]. left. by eauto. }
  unfold bind at 1. rewrite projectDir_run. cbn zeta.
  destruct (ImageInspectWithRaw image w2) as [[ins1|err] w3]; cbn [fst snd].
  2:{ eexists _, w3, [_]. split; [reflexivity|]. right; left. by eauto. }
  unfold bind at 1, host at 1. cbn [fst snd].
  destruct (loadCodeServer w3) as [[bin|err] w4].
  2:{ eexists _, w4, [_]. split; [reflexivity|]. do 2 right; left. by eauto. }
  unfold bind at 1. rewrite imageDefinedMounts_run. cbn zeta.
  destruct (ImageInspectWithRaw image w4) as [[ins2|err] w5]; cbn [fst snd].
  2:{ eexists _, w5, [_; _]. rewrite <- app_assoc. split; [reflexivity|].
      do 3 right; left. by eauto. }
  rewrite imageDefinedMounts_loop_app.
  destruct (imageDefinedMounts_loop _ []) as [shares|err] eqn:Hshares.
  2:{ eexists _, w5, [_; _]. rewrite <- app_assoc. split; [reflexivity|].
      do 4 right. exists ins1, ins2. split; [done|]. left. by eauto. }
  unfold bind.
  match goal with
  | |- context [resolveMounts r ?ms (?w, ?t)] =>
      destruct (resolveMounts_run r ms w t) as (res & w6 & -> & _)
  end.
  destruct res as [ms|p].
  - eexists _, w6, [_; _]. rewrite <- app_assoc. split; [reflexivity|].
    do 4 right. exists ins1, ins2. split; [done|]. right. exists shares. by eauto.
  - eexists _, w6, [_; _]. rewrite <- app_assoc. split; [reflexivity|].
    do 4 right. exists ins1, ins2. split; [done|]. right. exists shares. by eauto.
Qed.

(** The ways a run of [runContainer] ends, by the engine calls it made. *)
Lemma runContainer_run_cases r image w :
  ∃ res w' evs,
    runContainer r image (w, []) = (res, (w', evs)) ∧
    ((evs = [] ∧ ∃ err, res = Done (Some (Wrapf "failed to assemble mounts: %w" [] err))) ∨
     (∃ err, evs = [EvImageInspect image (Err err)] ∧
        res = Done (Some (Wrapf "failed to assemble mounts: %w" []
                            (Wrapf "failed to inspect image: %w" [] err)))) ∨
     (∃ ins1 err, evs = [EvImageInspect image (Ok ins1)] ∧
        res = Done (Some (Wrapf "failed to assemble mounts: %w" []
                            (Wrapf "failed to load code-server: %w" [] err)))) ∨
     (∃ ins1 err, evs = [EvImageInspect image (Ok ins1); EvImageInspect image (Err err)] ∧
        res = Done (Some (Wrapf "failed to assemble mounts: %w" []
                            (Wrapf "failed to inspect %v: %w" [image] err)))) ∨
     (∃ ins1 ins2, evs = [EvImageInspect image (Ok ins1); EvImageInspect image (Ok ins2)] ∧
        ((∃ err, imageDefinedMounts_loop (range_order (Labels (ContainerConfig ins2))) [] =
                   Err err ∧
                 res = Done (Some (Wrapf "failed to assemble mounts: %w" [] err))) ∨
         (∃ shares p, imageDefinedMounts_loop (range_order (Labels (ContainerConfig ins2))) [] =
                        Ok shares ∧ res = Panicked p))) ∨
     (∃ ins1 ins2 err,
        evs = [EvImageInspect image (Ok ins1); EvImageInspect image (Ok ins2);
               EvImageInspect image (Err err)] ∧
        res = Done (Some (Wrapf "failed to inspect image: %w" [] err))) ∨
     (∃ ins1 ins2 ins3 err,
        evs = [EvImageInspect image (Ok ins1); EvImageInspect image (Ok ins2);
               EvImageInspect image (Ok ins3); EvImageInspect image (Err err)] ∧
        res = Done (Some (Wrapf "failed to add image defined labels: %w" []
                            (Wrapf "failed to inspect %v: %w" [image] err)))) ∨
     (∃ ins1 ins2 ins3 ins4 config hostConfig netConfig err,
        evs = [EvImageInspect image (Ok ins1); EvImageInspect image (Ok ins2);
               EvImageInspect image (Ok ins3); EvImageInspect image (Ok ins4);
               EvContainerCreate config hostConfig netConfig (cntName r) (Err err)] ∧
        res = Done (Some (Wrapf "failed to create container: %w" [] err))) ∨
     (∃ ins1 ins2 ins3 ins4 config hostConfig netConfig id sresp,
        evs = [EvImageInspect image (Ok ins1); EvImageInspect image (Ok ins2);
               EvImageInspect image (Ok ins3); EvImageInspect image (Ok ins4);
               EvContainerCreate config hostConfig netConfig (cntName r) (Ok id);
               EvContainerStart (cntName r) sresp] ∧
        res = Done match sresp with
                   | Some err => Some (Wrapf "failed to start container: %w" [] err)
                   | None => None
                   end)).
Proof.
  unfold runContainer. unfold bind at 1.
  destruct (mounts_run_cases r [] image w []) as (mres & w1 & evs1 & -> & Hcases).
  cbn [app] in *.
  destruct Hcases as [(-> & err & ->)|[(err & -> & ->)|[(ins1 & err & -> & ->)|
    [(ins1 & err & -> & ->)|(ins1 & ins2 & -> & Hres)]]]].
  { eexists _, _, _. split; [reflexivity|]. left. by eauto. }
  { eexists _, _, _. split; [reflexivity|]. right; left. by eauto. }
  { eexists _, _, _. split; [reflexivity|]. do 2 right; left. by eauto. }
  { eexists _, _, _. split; [reflexivity|]. do 3 right; left. by eauto. }
  destruct Hres as [(err & Hloop & ->)|(shares & Hloop & [(p & ->)|(ms & ->)])].
  { eexists _, _, _. split; [reflexivity|]. do 4 right; left.
    exists ins1, ins2. split; [done|]. left. by eauto. }
  { eexists _, _, _. split; [reflexivity|]. do 4 right; left.
    exists ins1, ins2. split; [done|]. right. by eauto. }
  unfold bind at 1. rewrite projectDir_run. cbn zeta.
  destruct (ImageInspectWithRaw image w1) as [[ins3|err] w2]; cbn [fst snd app].
  2:{ eexists _, _, _. split; [reflexivity|]. do 5 right; left. by eauto. }
  unfold bind at 1. rewrite addImageDefinedLabels_run. cbn zeta.
  destruct (ImageInspectWithRaw image w2) as [[ins4|err] w3]; cbn [fst snd app].
  2:{ eexists _, _, _. split; [reflexivity|]. do 6 right; left. by eauto 10. }
  unfold bind at 1, containerCreate, engine at 1. cbn [fst snd app].
  destruct (ContainerCreate _ _ _ _ w3) as [[id|err] w4].
  - unfold bind, containerStart, engine. cbn [fst snd app].
    destruct (ContainerStart (cntName r) w4) as [[serr|] w5].
    all: eexists _, w5, _; (split; [reflexivity|]); do 8 right.
    all: by eexists ins1, ins2, ins3, ins4, _, _, _, id, _.
  - eexists _, w4, _. split; [reflexivity|]. do 7 right; left.
    by eexists ins1, ins2, ins3, ins4, _, _, _, err.
Qed.

Ltac run_cases r image w :=
  unfold calls, returned;
  destruct (runContainer_run_cases r image w) as (res & w' & evs & -> & Hcases);
  cbn [fst snd];
  destruct Hcases as
    [(-> & err0 & ->)
    |[(err0 & -> & ->)
    |[(ins1 & err0 & -> & ->)
    |[(ins1 & err0 & -> & ->)
    |[(ins1 & ins2 & -> & [(err0 & Hloop & ->)|(shares & p0 & Hloop & ->)])
    |[(ins1 & ins2 & err0 & -> & ->)
    |[(ins1 & ins2 & ins3 & err0 & -> & ->)
    |[(ins1 & ins2 & ins3 & ins4 & config0 & hostConfig0 & netConfig0 & err0 & -> & ->)
    |(ins1 & ins2 & ins3 & ins4 & config0 & hostConfig0 & netConfig0 & id0 & sresp0 & -> & ->)
    ]]]]]]]].


Ltac elem_cases H :=
  rewrite ?elem_of_cons in H;
  repeat match type of H with
         | _ ∨ _ => destruct H as [H|H]; [try discriminate H|]
         end;
  try (by apply elem_of_nil in H).


(** X10. When the create call of a run of [runContainer] fails, the
    error returned is that failure wrapped as "failed to create
    container", the create call is the last engine call of the run, and
    the container is never started. *)
Theorem runContainer_create_failure (r : runner) (image : string) (w : W)
    (config : Config) (hostConfig : HostConfig) (netConfig : NetworkingConfig)
    (name : string) (err : error) :
  EvContainerCreate config hostConfig netConfig name (Err err) ∈ calls (runContainer r image) w →
  returned (runContainer r image) w =
    Done (Some (Wrapf "failed to create container: %w" [] err)) ∧
  (∃ inspections,
     Forall is_inspect inspections ∧
     calls (runContainer r image) w =
       inspections ++ [EvContainerCreate config hostConfig netConfig name (Err err)]) ∧
  ∀ name' resp, EvContainerStart name' resp ∉ calls (runContainer r image) w.
Proof.
  run_cases r image w; intros Hin; elem_cases Hin.
  injection Hin as <- <- <- <- <-.
  split; [done|]. split.
  - eexists [_; _; _; _]. split; [|done]. by repeat constructor.
  - intros name' resp Hstart. elem_cases Hstart.
Qed.

(** X11. [runContainer] returns no error exactly when its run is four
    successful inspections of the image, a successful create call and a
    successful start call of the container of the runner, in this
    order. *)
Theorem runContainer_success (r : runner) (image : string) (w : W) :
  returned (runContainer r image) w = Done None ↔
  ∃ ins1 ins2 ins3 ins4 config hostConfig netConfig id,
    calls (runContainer r image) w =
      [EvImageInspect image (Ok ins1); EvImageInspect image (Ok ins2);
       EvImageInspect image (Ok ins3); EvImageInspect image (Ok ins4);
       EvContainerCreate config hostConfig netConfig (cntName r) (Ok id);
       EvContainerStart (cntName r) None].
Proof.
  run_cases r image w; (split; [intros Hres|intros (?&?&?&?&?&?&?&?&Hev)]);
    try discriminate Hres; try discriminate Hev.
  - destruct sresp0; [discriminate Hres|].
    by exists ins1, ins2, ins3, ins4, config0, hostConfig0, netConfig0, id0.
  - by simplify_eq.
Qed.

End Endings.

(** ** The request, and what recovery makes of it *)

Section Request.
Context {W : Type} `{!Docker W, !HostOS W, !Package W, !MapRange}.

#[local] Arguments filepath.Join : simpl never.
#[local] Arguments filepath.Clean : simpl never.
#[local] Arguments strings.Split : simpl never.

(** X13. In every run of [runContainer] that makes the create call, the
    container is asked for under the name of the runner, with its
    hostname, the image of the run, the user [<hostUser>:user], in
    privileged mode, and attached to one network only, the network of the
    runner, with the IP of the runner. *)
Theorem runContainer_request_identity (r : runner) (image : string) (w : W)
    (config : Config) (hostConfig : HostConfig) (netConfig : NetworkingConfig)
    (name : string) (resp : result string) :
  EvContainerCreate config hostConfig netConfig name resp ∈ calls (runContainer r image) w →
  name = cntName r ∧
  Hostname config = hostname r ∧
  Image config = image ∧
  User config = hostUser r +:+ ":user" ∧
  Privileged hostConfig = true ∧
  EndpointsConfig netConfig =
    {[ network r := {| NetworkID := network r; IPAddress := ip r |} ]}.
Proof.
  intros (bin & hostHomeDir & ins1 & ins2 & ins3 & ins4 & shares & _ & _ & Hreq & _)
    %runContainer_create_inv.
  unfold create_request in Hreq. injection Hreq as -> Hhost -> ->.
  by rewrite Hhost.
Qed.

(** X14. When the global-storage directory of the container cannot be
    created (it is asked for under the metadata root, in a directory named
    after the container, with mode 0750), [runContainer] makes no engine
    call at all and returns the error of the operating system wrapped as a
    failure to assemble the mounts. *)
Theorem runContainer_mkdir_failure (r : runner) (image : string) (w w1 w2 : W)
    (root : string) (err : error) :
  metaRoot w = (root, w1) →
  MkdirAll (filepath.Join [root; cntName r; "globalStorage"]) 488%N w1 = (Some err, w2) →
  returned (runContainer r image) w =
    Done (Some (Wrapf "failed to assemble mounts: %w" [] err)) ∧
  calls (runContainer r image) w = [].
Proof.
  intros Hroot Hmkdir.
  assert (Hrun : runContainer r image (w, []) =
                 (Done (Some (Wrapf "failed to assemble mounts: %w" [] err)), (w2, []))).
  { unfold runContainer, mounts.
    unfold bind at 1. unfold bind at 1, host at 1. cbn [fst snd]. rewrite Hroot.
    unfold bind at 1, host at 1. cbn [fst snd]. by rewrite Hmkdir. }
  unfold returned, calls. by rewrite Hrun.
Qed.

(** X15. Recovery after creation. When a container holds the
    configuration that a run of [runContainer] asked for, and the image had
    no label of its own for the project name and the local project
    directory, [runnerFromContainer] gives back the container name, the
    project name, the hostname and the local project directory of the
    runner that created it; the host user comes back with [:user]
    appended, and the test command comes back empty. *)
Theorem runnerFromContainer_after_runContainer (r : runner) (image : string) (w w' w1 w2 : W)
    (config : Config) (hostConfig : HostConfig) (netConfig : NetworkingConfig)
    (name net addr : string) (resp : result string) (img4 : ImageInspect)
    (cnt : ContainerJSON) :
  EvContainerCreate config hostConfig netConfig name resp ∈ calls (runContainer r image) w →
  calls (runContainer r image) w !! 3 = Some (EvImageInspect image (Ok img4)) →
  Labels (ContainerConfig img4) !! projectNameLabel = None →
  Labels (ContainerConfig img4) !! projectLocalDirLabel = None →
  ContainerInspect name w' = (Ok cnt, w1) →
  CntConfig cnt = config →
  ContainerIP name w1 = (Ok addr, w2) →
  returned (runnerFromContainer name net) w' =
    Done (Ok {| cntName := cntName r; projectName := projectName r;
                hostname := hostname r; projectLocalDir := projectLocalDir r;
                hostUser := hostUser r +:+ ":user"; network := net;
                ip := addr; testCmd := "" |}).
Proof.
  intros (bin & hostHomeDir & ins1 & ins2 & ins3 & ins4 & shares & _ & _ & Hreq & Hpre)
    %runContainer_create_inv Himg4 Hname Hlocal Hcnt Hconfig Hip.
  destruct Hpre as [rest Hcalls]. rewrite Hcalls in Himg4. injection Himg4 as <-.
  unfold create_request in Hreq. injection Hreq as -> _ -> ->.
  destruct (control_labels_lookup r (projectDir_of r ins3)) as (_ & _ & Hl & Hn).
  unfold returned. rewrite runnerFromContainer_run. cbn zeta.
  rewrite Hcnt. cbn [fst snd]. rewrite Hip, Hconfig. cbn [fst snd Labels Hostname User].
  by rewrite !addImageDefinedLabels_range_lookup, Hname, Hlocal, Hl, Hn.
Qed.

(** X16. A container without the project-name and local-dir labels is
    recovered without error: both fields of the runner are the empty
    string, and the test command is empty as in every recovery. *)
Theorem runnerFromContainer_missing_labels (name net addr : string) (w w1 w2 : W)
    (cnt : ContainerJSON) :
  ContainerInspect name w = (Ok cnt, w1) →
  Labels (CntConfig cnt) !! projectNameLabel = None →
  Labels (CntConfig cnt) !! projectLocalDirLabel = None →
  ContainerIP name w1 = (Ok addr, w2) →
  returned (runnerFromContainer name net) w =
    Done (Ok {| cntName := name; projectName := "";
                hostname := Hostname (CntConfig cnt); projectLocalDir := "";
                hostUser := User (CntConfig cnt); network := net;
                ip := addr; testCmd := "" |}).
Proof.
  intros Hcnt Hname Hlocal Hip.
  unfold returned. rewrite runnerFromContainer_run. cbn zeta.
  rewrite Hcnt. cbn [fst snd]. by rewrite Hip, Hname, Hlocal.
Qed.

(** X17. A [project_root] label that is present and empty does not make
    [projectDir] fall back to the guest home directory: the directory is
    the cleaned project name alone, and the empty string when the project
    name is empty too. *)
Theorem projectDir_empty_project_root (r : runner) (image : string) (w w' : W)
    (img : ImageInspect) :
  ImageInspectWithRaw image w = (Ok img, w') →
  Labels (ImageConfig img) !! "project_root" = Some "" →
  returned (projectDir r image) w =
    Done (Ok (if decide (projectName r = "") then "" else filepath.Clean (projectName r))).
Proof.
  intros Hins Hroot. unfold returned. rewrite projectDir_run, Hins. cbn [fst snd].
  unfold projectDir_of. rewrite Hroot. reflexivity.
Qed.

(** X18. When [mounts] returns a mount list, it made two successful
    inspections of the image and no other engine call, and the list is the
    resolution, mount by mount, of the mounts it was given, then the five
    built-in mounts, then the shares of the image: the mounts given stay
    first, and no mount is dropped or merged. *)
Theorem mounts_keeps_given_mounts_first (r : runner) (ms0 ms : list Mount)
    (image : string) (w : W) :
  returned (mounts r ms0 image) w = Done (Ok ms) →
  ∃ codeServerBinPath hostHomeDir img1 img2 shares,
    calls (mounts r ms0 image) w =
      [EvImageInspect image (Ok img1); EvImageInspect image (Ok img2)] ∧
    imageDefinedMounts_loop (range_order (Labels (ContainerConfig img2))) [] = Ok shares ∧
    Forall2 (resolved hostHomeDir)
      (ms0 ++
       [ mkMount "bind" "~/.config/Code" "~/.config/Code";
         mkMount "bind" "~/.vscode/extensions" "~/.vscode/extensions";
         mkMount "bind" (filepath.Join [(metaRoot w).1; cntName r; "globalStorage"])
                 "~/.local/share/code-server/globalStorage/";
         mkMount "bind" (projectLocalDir r) (projectDir_of r img1);
         mkMount "bind" codeServerBinPath "/usr/bin/code-server" ] ++ shares)
      ms ∧
    length ms = length ms0 + 5 + length shares.
Proof.
  unfold returned, calls.
  destruct (mounts_run r ms0 image w []) as (res & w1 & evs & -> & _ & Hok & _).
  cbn [fst snd app]. intros ->.
  destruct (Hok ms eq_refl) as (bin & hostHomeDir & ins1 & ins2 & shares & -> & Hshares & Hall).
  exists bin, hostHomeDir, ins1, ins2, shares.
  split; [done|]. split; [done|]. split; [done|].
  apply Forall2_length in Hall. rewrite <- Hall, !length_app. cbn [length builtin_mounts]. lia.
Qed.

End Request.

(** ** The further properties on the small engine *)

Section MoreOnTheSmallEngine.
Import Sim.

(** Walked forwards and backwards, the two shares of an image come out in
    the two orders. *)
Example imageDefinedMounts_two_orders :
  returned (@imageDefinedMounts world docker map_range alice "img" []) (fresh sharing_image) =
    Done (Ok [mkMount "bind" "~/go" "/go"; mkMount "bind" "~/.ssh" "~/.ssh"]) ∧
  returned (@imageDefinedMounts world docker backwards alice "img" []) (fresh sharing_image) =
    Done (Ok [mkMount "bind" "~/.ssh" "~/.ssh"; mkMount "bind" "~/go" "/go"]).
Proof. split; vm_compute; reflexivity. Qed.

(** The label [sail.hat] of the sample image is laid over a map that holds
    [keep]. *)
Lemma addImageDefinedLabels_overlay_witness :
  returned (addImageDefinedLabels alice "img" {[ "keep" := "me" ]}) (fresh sample_image) =
    Done ({[ "keep" := "me"; "sail.hat" := "hat" ]}, None) ∧
  returned (addImageDefinedLabels alice "img" {[ "keep" := "me" ]}) empty_world =
    Done ({[ "keep" := "me" ]},
          Some (Wrapf "failed to inspect %v: %w" ["img"] (External "No such image: img"))).
Proof.
  destruct (addImageDefinedLabels_overlay alice "img" {[ "keep" := "me" ]} (fresh sample_image))
    as [Hok _].
  destruct (addImageDefinedLabels_overlay alice "img" {[ "keep" := "me" ]} empty_world)
    as [_ Hfail].
  split.
  - assert (Hins : ImageInspectWithRaw "img" (fresh sample_image) =
                   (Ok sample_image, fresh sample_image)) by reflexivity.
    rewrite (Hok _ _ Hins). vm_compute. reflexivity.
  - assert (Hins : ImageInspectWithRaw "img" empty_world =
                   (Err (External "No such image: img"), empty_world)) by reflexivity.
    rewrite (Hfail _ _ Hins). reflexivity.
Defined.

(** A mount under the home directory, resolved. *)
Lemma resolveMounts_absolute_sources_witness :
  resolveMounts alice [mkMount "bind" "~/go/../src" "~/src"] (fresh sample_image, []) =
  (Done [mkMount "bind" "/home/alice/src" "/home/user/src"], (fresh sample_image, [])).
Proof.
  assert (Hhome : UserHomeDir (fresh sample_image) = (Ok "/home/alice", fresh sample_image))
    by reflexivity.
  rewrite (resolveMounts_absolute_sources alice [mkMount "bind" "~/go/../src" "~/src"]
             (fresh sample_image) (fresh sample_image) [] "/home/alice" Hhome).
  - vm_compute. reflexivity.
  - repeat constructor.
Defined.

(** Without a home directory even the empty list panics; without a
    working directory the relative source [go] does. *)
Lemma resolveMounts_panics_witness :
  @resolveMounts world homeless_os package alice [] (fresh sample_image, []) =
    (Panicked (PanicErr (External "$HOME is not defined")), (fresh sample_image, [])) ∧
  @resolveMounts world lost_os package alice
     [mkMount "bind" "~/src" "~/src"; mkMount "bind" "go" "/go"] (fresh sample_image, []) =
    (Panicked (PanicSprintf "failed to resolve %v: %v" [""]
                 (External "getwd: no such file or directory")),
     (fresh sample_image, [])).
Proof.
  split.
  - destruct (@resolveMounts_panics world homeless_os package alice [] (fresh sample_image) [])
      as [Hhome _].
    apply Hhome. reflexivity.
  - destruct (@resolveMounts_panics world lost_os package alice
                [mkMount "bind" "~/src" "~/src"; mkMount "bind" "go" "/go"]
                (fresh sample_image) []) as [_ Hwd].
    apply (Hwd "/home/alice" (fresh sample_image) [mkMount "bind" "~/src" "~/src"]
             (mkMount "bind" "go" "/go") []).
    + reflexivity.
    + reflexivity.
    + repeat constructor.
    + vm_compute. discriminate.
    + reflexivity.
Defined.


(** A second create under the same name fails and nothing is started. *)
Lemma runContainer_create_failure_witness :
  returned (runContainer alice "img") created =
    Done (Some (Wrapf "failed to create container: %w" []
                  (External "Conflict. The container name is already in use: alice_proj"))) ∧
  last (calls (runContainer alice "img") created) ≠
    Some (EvContainerStart "alice_proj" None).
Proof.
  pose proof (runContainer_create_failure alice "img" created _ _ _ _ _
                ltac:(apply list_elem_of_lookup_2 with 4; vm_compute; reflexivity))
    as (Hret & (inspections & _ & Hcalls) & _).
  split; [exact Hret|].
  rewrite Hcalls, last_app. discriminate.
Defined.

(** The run on a fresh host succeeds. *)
Lemma runContainer_success_witness :
  returned (runContainer alice "img") (fresh sample_image) = Done None.
Proof.
  apply runContainer_success. eexists _, _, _, _, _, _, _, _.
  vm_compute. reflexivity.
Defined.

(** The identity of the request of the sample run. *)
Lemma runContainer_request_identity_witness :
  ∃ config hostConfig netConfig name resp,
    create_call (calls (runContainer alice "img") (fresh sample_image)) =
      Some (config, hostConfig, netConfig, name, resp) ∧
    name = "alice_proj" ∧ User config = "1000:user" ∧ Privileged hostConfig = true ∧
    EndpointsConfig netConfig =
      {[ "sail" := {| NetworkID := "sail"; IPAddress := "172.20.0.2" |} ]}.
Proof.
  eexists _, _, _, _, _. split; [vm_compute; reflexivity|].
  pose proof (runContainer_request_identity alice "img" (fresh sample_image) _ _ _ _ _
                ltac:(apply list_elem_of_lookup_2 with 4; vm_compute; reflexivity))
    as (Hname & _ & _ & Huser & Hpriv & Hnet).
  split; [exact Hname|]. split; [exact Huser|]. split; [exact Hpriv|exact Hnet].
Defined.

(** On a read-only host nothing is asked of the engine. *)
Lemma runContainer_mkdir_failure_witness :
  returned (@runContainer world docker readonly_os package map_range alice "img")
           (fresh sample_image) =
    Done (Some (Wrapf "failed to assemble mounts: %w" []
                  (External "mkdir /home/alice/.local/share/sail/alice_proj/globalStorage: read-only file system"))) ∧
  calls (@runContainer world docker readonly_os package map_range alice "img")
        (fresh sample_image) = [].
Proof.
  apply (@runContainer_mkdir_failure world docker readonly_os package map_range alice "img"
           (fresh sample_image) (fresh sample_image) (fresh sample_image)
           "/home/alice/.local/share/sail"); reflexivity.
Defined.

(** [alice]'s container, recovered: the user has become [1000:user]. *)
Lemma runnerFromContainer_after_runContainer_witness :
  hostUser alice = "1000" ∧
  returned (runnerFromContainer "alice_proj" "sail") created =
    Done (Ok {| cntName := "alice_proj"; projectName := "proj"; hostname := "proj";
                projectLocalDir := "~/Projects/proj"; hostUser := "1000:user";
                network := "sail"; ip := "172.20.0.2"; testCmd := "" |}).
Proof.
  split; [reflexivity|].
  eapply (runnerFromContainer_after_runContainer alice "img" (fresh sample_image) created).
  - apply list_elem_of_lookup_2 with 4. vm_compute. reflexivity.
  - vm_compute. reflexivity.
  - vm_compute. reflexivity.
  - vm_compute. reflexivity.
  - vm_compute. reflexivity.
  - reflexivity.
  - vm_compute. reflexivity.
Defined.

(** A container without labels, recovered. *)
Lemma runnerFromContainer_missing_labels_witness :
  returned (runnerFromContainer "alice_proj" "sail") unlabelled =
    Done (Ok {| cntName := "alice_proj"; projectName := ""; hostname := "proj";
                projectLocalDir := ""; hostUser := "1000:user";
                network := "sail"; ip := "172.20.0.2"; testCmd := "" |}).
Proof.
  assert (Hcnt : ContainerInspect "alice_proj" unlabelled = (Ok bare_container, unlabelled))
    by reflexivity.
  assert (Hip : ContainerIP "alice_proj" unlabelled = (Ok "172.20.0.2", unlabelled))
    by (vm_compute; reflexivity).
  rewrite (runnerFromContainer_missing_labels "alice_proj" "sail" "172.20.0.2"
             unlabelled unlabelled unlabelled bare_container Hcnt); [reflexivity|..].
  - vm_compute. reflexivity.
  - vm_compute. reflexivity.
  - exact Hip.
Defined.

(** With an empty project root the project directory is [proj]. *)
Lemma projectDir_empty_project_root_witness :
  returned (projectDir alice "img") (fresh rootless_image) = Done (Ok "proj").
Proof.
  assert (Hins : ImageInspectWithRaw "img" (fresh rootless_image) =
                 (Ok rootless_image, fresh rootless_image)) by reflexivity.
  rewrite (projectDir_empty_project_root alice "img" (fresh rootless_image)
             (fresh rootless_image) rootless_image Hins); [reflexivity|].
  vm_compute. reflexivity.
Defined.

(** One mount given, five built in and one share make seven. *)
Lemma mounts_keeps_given_mounts_first_witness :
  ∃ ms, returned (mounts alice [mkMount "bind" "/a" "/b"] "img") (fresh sample_image) =
          Done (Ok ms) ∧
        head ms = Some (mkMount "bind" "/a" "/b") ∧ length ms = 7.
Proof.
  eexists. split; [vm_compute; reflexivity|]. split; [reflexivity|].
  match goal with
  | |- length ?ms = _ =>
      assert (Hret : returned (mounts alice [mkMount "bind" "/a" "/b"] "img")
                       (fresh sample_image) = Done (Ok ms))
        by (vm_compute; reflexivity)
  end.
  pose proof (mounts_keeps_given_mounts_first alice [mkMount "bind" "/a" "/b"] _ "img"
                (fresh sample_image) Hret)
    as (bin & hostHomeDir & img1 & img2 & shares & Hcalls & Hshares & _ & Hlen).
  vm_compute in Hcalls. injection Hcalls as _ <-.
  vm_compute in Hshares. injection Hshares as <-.
  exact Hlen.
Defined.

End MoreOnTheSmallEngine.
